(** * AutoPTZ camera widget: tracking and PTZ steering

    A shallow embedding of [CameraWidget] from
    [views/widgets/camera_widget.py]: the tracking fields of the widget,
    [set_tracking], [set_tracked_name], [draw_on_frame] and [track_face],
    followed by the properties of the fusion-and-steering loop.

    Conventions.
    - Python [int] is [Z]; [None]-able attributes are [option].
    - [int(frame.shape[1] / 9.2)] is evaluated in IEEE binary64, with the
      kernel's primitive floats, and truncated toward zero as [int()] does.
    - The widget record is threaded explicitly; every operation returns the
      new widget together with the actuator calls it issued, in order.
    - The dlib correlation tracker is an interface ([CorrelationTracker]);
      nothing below depends on how it predicts.
    - The FPS overlay reads the wall clock; its text is an input of
      [draw_on_frame] and the counter fields are left out. *)

From Stdlib Require Import ZArith QArith Qround Lia List String Ascii Bool.
From Stdlib Require Import Floats.PrimFloat Floats.FloatOps Floats.SpecFloat.
From Stdlib Require Import Numbers.Cyclic.Int63.Uint63.
Import ListNotations.

#[local] Set Warnings "-inexact-float".
#[local] Open Scope bool_scope.
#[local] Open Scope Z_scope.

(* ------------------------------------------------------------------ *)
(** ** Python primitives *)

Module Py.

(** [int(f)] on a float: truncation toward zero.  Infinities and NaN raise in
    Python; they cannot arise from dividing a frame dimension by a non-zero
    constant, and are mapped to [0]. *)
Definition int_of_float (f : float) : Z :=
  match Prim2SF f with
  | S754_finite sg m e =>
      let mag := if 0 <=? e then Z.pos m * 2 ^ e else Z.pos m / 2 ^ (- e) in
      if sg then - mag else mag
  | _ => 0
  end.

(** [n / d] for an [int] [n] and a float [d]: [n] is converted to binary64
    (exactly, for [0 <= n < 2^53]) and divided with rounding to nearest. *)
Definition truediv (n : Z) (d : float) : float :=
  PrimFloat.div (PrimFloat.of_uint63 (Uint63.of_Z n)) d.

(** [str.upper()] on the ASCII letters; other characters are kept as they
    are, where Python also maps non-ASCII letters.  Only the text of the
    "TRACKING ..." label depends on it. *)
Definition upper_ascii (c : ascii) : ascii :=
  let n := nat_of_ascii c in
  if (97 <=? n)%nat && (n <=? 122)%nat then ascii_of_nat (n - 32) else c.

Fixpoint upper (s : string) : string :=
  match s with
  | EmptyString => EmptyString
  | String c r => String (upper_ascii c) (upper r)
  end.

(** [a == b] where [a] is a [str] and [b] may be [None]. *)
Definition str_eq_opt (a : string) (b : option string) : bool :=
  match b with
  | Some b' => String.eqb a b'
  | None => false
  end.

(** [a == b] on two attributes that may be [None]. *)
Definition opt_str_eq (a b : option string) : bool :=
  match a, b with
  | Some a', Some b' => String.eqb a' b'
  | None, None => true
  | _, _ => false
  end.

End Py.

(* ------------------------------------------------------------------ *)
(** ** Frames and overlays *)

Definition Point := (Z * Z)%type.
Definition Color := (Z * Z * Z)%type.

(** The cv2 drawing calls the widget makes (the [lineType] argument of the
    tracking box is not recorded). *)
Inductive DrawOp :=
| Rectangle (pt1 pt2 : Point) (color : Color) (thickness : Z)
| PutText (text : string) (org : Point) (fontScale : Q) (color : Color) (thickness : Z).

(** A frame: [shape[0]] rows, [shape[1]] columns, the captured picture (opaque)
    and the drawing calls applied to it so far, oldest first. *)
Record Frame := mkFrame {
  shape0 : Z;
  shape1 : Z;
  picture : nat;
  overlay : list DrawOp
}.

Definition draw (f : Frame) (op : DrawOp) : Frame :=
  mkFrame (shape0 f) (shape1 f) (picture f) (overlay f ++ [op]).

Definition FONT_GREEN : Color := (0, 255, 0).
Definition FONT_WHITE : Color := (255, 255, 255).
Definition FONT_CYAN : Color := (255, 255, 0).
Definition FONT_RED : Color := (0, 0, 255).
Definition BOX_BLUE : Color := (255, 0, 0).
Definition BOX_MAGENTA : Color := (255, 0, 255).

(* ------------------------------------------------------------------ *)
(** ** Dead zone (track_face, lines 279-282) *)

Record DeadZone := mkDeadZone {
  min_x : Z;
  max_x : Z;
  min_y : Z;
  max_y : Z
}.

Definition dead_zone (frame : Frame) : DeadZone :=
  mkDeadZone
    (Py.int_of_float (Py.truediv (shape1 frame) 9.2%float))
    (Py.int_of_float (Py.truediv (shape1 frame) 1.2%float))
    (Py.int_of_float (Py.truediv (shape0 frame) 18%float))
    (Py.int_of_float (Py.truediv (shape0 frame) 1.6%float)).

(** The largest frame dimension for which the binary64 evaluation of the
    dead zone is checked against exact arithmetic below. *)
Definition MAX_DIM : Z := 16384.

Arguments dead_zone : simpl never.

(** The binary64 quotients against integer division of the exact fractions
    ([9.2 = 92/10], [1.2 = 12/10], [1.6 = 16/10]). *)
Definition width_agrees (w : Z) : bool :=
  (Py.int_of_float (Py.truediv w 9.2%float) =? 10 * w / 92) &&
  (Py.int_of_float (Py.truediv w 1.2%float) =? 10 * w / 12).

Definition height_agrees (h : Z) : bool :=
  (Py.int_of_float (Py.truediv h 18%float) =? h / 18) &&
  (Py.int_of_float (Py.truediv h 1.6%float) =? 10 * h / 16).

(** [p k && p (k+1) && ... && p (k+n-1)]. *)
Fixpoint all_from (n : nat) (k : Z) (p : Z -> bool) : bool :=
  match n with
  | O => true
  | S n' => p k && all_from n' (k + 1) p
  end.

(* ------------------------------------------------------------------ *)
(** ** PTZ commands and actuator calls *)

(** The values [last_request] takes besides [None]. *)
Inductive PTZCommand :=
| cmd_stop | cmd_up_left | cmd_up_right | cmd_down_left | cmd_down_right
| cmd_up | cmd_down | cmd_left | cmd_right.

(** The string literal the source stores in [last_request]. *)
Definition request_name (c : PTZCommand) : string :=
  match c with
  | cmd_stop => "stop" | cmd_up_left => "up_left" | cmd_up_right => "up_right"
  | cmd_down_left => "down_left" | cmd_down_right => "down_right"
  | cmd_up => "up" | cmd_down => "down" | cmd_left => "left" | cmd_right => "right"
  end%string.

Definition PTZCommand_eqb (a b : PTZCommand) : bool :=
  match a, b with
  | cmd_stop, cmd_stop | cmd_up_left, cmd_up_left | cmd_up_right, cmd_up_right
  | cmd_down_left, cmd_down_left | cmd_down_right, cmd_down_right
  | cmd_up, cmd_up | cmd_down, cmd_down | cmd_left, cmd_left | cmd_right, cmd_right => true
  | _, _ => false
  end.

(** [self.last_request != "<c>"]. *)
Definition request_differs (lr : option PTZCommand) (c : PTZCommand) : bool :=
  match lr with
  | Some c' => negb (PTZCommand_eqb c' c)
  | None => true
  end.

(** Methods of the USB (discrete-move) controller. *)
Inductive UsbMethod :=
| move_stop | move_left_up_track | move_right_up_track | move_left_down_track
| move_right_down_track | move_up_track | move_down_track | move_left_track
| move_right_track.

(** A call on the PTZ actuator: a USB method, the NDI
    [recv_ptz_pan_tilt_speed] with its two speeds, or the controller's own
    [pantilt] and [close_connection], which only [set_ptz] uses. *)
Inductive ActuatorCall :=
| UsbCall (m : UsbMethod)
| NdiPanTiltSpeed (pan_speed tilt_speed : Q)
| PanTilt (pan_speed tilt_speed : Q)
| CloseConnection.

(** The [if self.ptz_is_usb: ... else: ...] pair inside every steering branch. *)
Definition actuate (usb : bool) (c : PTZCommand) : ActuatorCall :=
  if usb then
    UsbCall match c with
            | cmd_stop => move_stop
            | cmd_up_left => move_left_up_track
            | cmd_up_right => move_right_up_track
            | cmd_down_left => move_left_down_track
            | cmd_down_right => move_right_down_track
            | cmd_up => move_up_track
            | cmd_down => move_down_track
            | cmd_left => move_left_track
            | cmd_right => move_right_track
            end
  else
    match c with
    | cmd_stop => NdiPanTiltSpeed 0 0
    | cmd_up_left => NdiPanTiltSpeed (1 # 10) (1 # 10)
    | cmd_up_right => NdiPanTiltSpeed (- 1 # 10) (1 # 10)
    | cmd_down_left => NdiPanTiltSpeed (1 # 10) (- 1 # 10)
    | cmd_down_right => NdiPanTiltSpeed (- 1 # 10) (- 1 # 10)
    | cmd_up => NdiPanTiltSpeed 0 (1 # 10)
    | cmd_down => NdiPanTiltSpeed 0 (- 1 # 10)
    | cmd_left => NdiPanTiltSpeed (1 # 10) 0
    | cmd_right => NdiPanTiltSpeed (- 1 # 10) 0
    end.

(* ------------------------------------------------------------------ *)
(** ** The correlation tracker and the recognition snapshot *)

(** [dlib.rectangle(left, top, right, bottom)]. *)
Definition Rect := (Z * Z * Z * Z)%type.

(** The part of [dlib.correlation_tracker] the widget uses.  [get_position]
    stands for the four [int(pos.left())] ... [int(pos.bottom())] readings. *)
Class CorrelationTracker (T : Type) := {
  correlation_tracker : T;
  start_track : T -> Frame -> Rect -> T;
  update : T -> Frame -> T;
  get_position : T -> Rect
}.

(** The three lists the recognition thread publishes; each may be [None].
    A location is [(top, right, bottom, left)]. *)
Record ProcessorThread := mkProcessorThread {
  face_locations : option (list (Z * Z * Z * Z));
  face_names : option (list string);
  confidence_list : option (list string)
}.

(** [zip(a, b, c)]: stops at the shortest list. *)
Definition zip3 {A B C} (a : list A) (b : list B) (c : list C) : list (A * B * C) :=
  combine (combine a b) c.

(** Handle of the PTZ controller object. *)
Definition Controller := nat.

(** The exception the widget's own code raises: an attribute looked up on an
    object that has none of that name ([None.upper()], [pantilt] on the NDI
    receiver).  Errors raised inside the cv2 and dlib calls, on frames or
    rectangles those libraries refuse, are outside the model: these calls
    are taken to succeed. *)
Inductive PyExn := AttributeError.

Inductive Result (A : Type) :=
| Ok (a : A)
| Raise (e : PyExn).
Arguments Ok {A} a.
Arguments Raise {A} e.

Section Widget.

Context {T : Type} `{CorrelationTracker T}.

(** The tracking attributes of [CameraWidget] (lines 69-87). *)
Record CameraWidget := mkWidget {
  track_started : bool;
  temp_tracked_name : option string;
  track_x : option Z;
  track_y : option Z;
  track_w : option Z;
  track_h : option Z;
  is_tracking : bool;
  tracked_name : option string;
  tracker : T;
  ptz_controller : option Controller;
  ptz_is_usb : option bool;
  last_request : option PTZCommand
}.

(** What one call did: its return value or exception, the widget afterwards
    and the actuator calls it made. *)
Record Step (A : Type) := mkStep {
  result : Result A;
  widget : CameraWidget;
  dispatched : list ActuatorCall
}.
Arguments mkStep {A} _ _ _.
Arguments result {A} _.
Arguments widget {A} _.
Arguments dispatched {A} _.

(** Truthiness of [self.ptz_is_usb]. *)
Definition is_usb (s : CameraWidget) : bool :=
  match ptz_is_usb s with
  | Some b => b
  | None => false
  end.

(** Attribute assignments. *)
Definition with_box (s : CameraWidget) (x y w h : option Z) : CameraWidget :=
  mkWidget (track_started s) (temp_tracked_name s) x y w h (is_tracking s)
    (tracked_name s) (tracker s) (ptz_controller s) (ptz_is_usb s) (last_request s).

Definition with_temp_tracked_name (s : CameraWidget) (n : option string) : CameraWidget :=
  mkWidget (track_started s) n (track_x s) (track_y s) (track_w s) (track_h s)
    (is_tracking s) (tracked_name s) (tracker s) (ptz_controller s) (ptz_is_usb s)
    (last_request s).

Definition with_track_started (s : CameraWidget) (b : bool) : CameraWidget :=
  mkWidget b (temp_tracked_name s) (track_x s) (track_y s) (track_w s) (track_h s)
    (is_tracking s) (tracked_name s) (tracker s) (ptz_controller s) (ptz_is_usb s)
    (last_request s).

Definition with_is_tracking (s : CameraWidget) (b : bool) : CameraWidget :=
  mkWidget (track_started s) (temp_tracked_name s) (track_x s) (track_y s) (track_w s)
    (track_h s) b (tracked_name s) (tracker s) (ptz_controller s) (ptz_is_usb s)
    (last_request s).

Definition with_tracked_name (s : CameraWidget) (n : option string) : CameraWidget :=
  mkWidget (track_started s) (temp_tracked_name s) (track_x s) (track_y s) (track_w s)
    (track_h s) (is_tracking s) n (tracker s) (ptz_controller s) (ptz_is_usb s)
    (last_request s).

Definition with_tracker (s : CameraWidget) (t : T) : CameraWidget :=
  mkWidget (track_started s) (temp_tracked_name s) (track_x s) (track_y s) (track_w s)
    (track_h s) (is_tracking s) (tracked_name s) t (ptz_controller s) (ptz_is_usb s)
    (last_request s).

Definition with_ptz (s : CameraWidget) (c : option Controller) (usb : option bool) : CameraWidget :=
  mkWidget (track_started s) (temp_tracked_name s) (track_x s) (track_y s) (track_w s)
    (track_h s) (is_tracking s) (tracked_name s) (tracker s) c usb (last_request s).

Definition with_last_request (s : CameraWidget) (r : option PTZCommand) : CameraWidget :=
  mkWidget (track_started s) (temp_tracked_name s) (track_x s) (track_y s) (track_w s)
    (track_h s) (is_tracking s) (tracked_name s) (tracker s) (ptz_controller s)
    (ptz_is_usb s) r.

(** [__init__], lines 69-87.  [ndi_ptz] is the NDI receiver when the source
    is an NDI source that supports PTZ, [None] otherwise. *)
Definition init (ndi_ptz : option Controller) : CameraWidget :=
  mkWidget false None None None None None false None correlation_tracker
    ndi_ptz None None.

(** [set_ptz], lines 103-117: stops the controller being replaced by [None].
    A controller put in place by an earlier [set_ptz] is stopped with
    [move_stop] when it is a USB one and with [pantilt] and
    [close_connection] otherwise.  The controller left by [__init__]
    ([ptz_is_usb] still [None]) is the NDI receiver, which has no [pantilt]:
    the call raises [AttributeError] and the two assignments are not
    reached. *)
Definition set_ptz (s : CameraWidget) (control : option Controller) (isUSB : bool)
  : Step unit :=
  match control, ptz_controller s with
  | None, Some _ =>
      match ptz_is_usb s with
      | Some true =>
          mkStep (Ok tt) (with_ptz s control (Some isUSB)) [UsbCall move_stop]
      | Some false =>
          mkStep (Ok tt) (with_ptz s control (Some isUSB))
            [PanTilt 0 0; CloseConnection]
      | None => mkStep (Raise AttributeError) s []
      end
  | _, _ => mkStep (Ok tt) (with_ptz s control (Some isUSB)) []
  end.

(** [set_tracking], lines 149-163. *)
Definition set_tracking (s : CameraWidget) : Step unit :=
  let s := with_box s None None None None in
  let s := with_is_tracking s (negb (is_tracking s)) in
  match ptz_controller s with
  | Some _ => mkStep (Ok tt) (with_last_request s None) [actuate (is_usb s) cmd_stop]
  | None => mkStep (Ok tt) s []
  end.

(** [set_tracked_name], lines 165-171. *)
Definition set_tracked_name (s : CameraWidget) (name : option string) : CameraWidget :=
  with_tracked_name (with_track_started s false) name.

Definition get_tracking (s : CameraWidget) : bool := is_tracking s.
Definition get_tracked_name (s : CameraWidget) : option string := tracked_name s.

(** *** track_face, lines 268-382 *)

(** Lines 287-292: [if self.track_started is False]. *)
Definition seed (s : CameraWidget) (frame rgb_frame : Frame) (x y w h : Z)
  : CameraWidget * Frame :=
  if negb (track_started s) then
    let s := with_tracker s (start_track (tracker s) rgb_frame (x, y, w, h)) in
    let frame := draw frame (PutText "tracking" (x, h + 15) (45 # 100) FONT_GREEN 1) in
    let frame := draw frame (Rectangle (x, y) (w, h) BOX_MAGENTA 3) in
    (with_track_started s true, frame)
  else (s, frame).

(** Lines 293-307: restart the tracker on the given box when the name was
    seen in this frame's snapshot, otherwise advance it and read its
    position into the local [x, y, w, h].  The attributes [track_x] ...
    [track_h] are not assigned here. *)
Definition reseed_or_predict (s : CameraWidget) (frame rgb_frame : Frame) (x y w h : Z)
  : CameraWidget * Frame * Rect :=
  if Py.opt_str_eq (temp_tracked_name s) (tracked_name s) then
    let s := with_tracker s (start_track (tracker s) rgb_frame (x, y, w, h)) in
    let frame := draw frame (PutText "tracking" (x, h + 15) (45 # 100) FONT_GREEN 1) in
    let frame := draw frame (Rectangle (x, y) (w, h) BOX_MAGENTA 3) in
    (s, frame, (x, y, w, h))
  else
    let s := with_tracker s (update (tracker s) rgb_frame) in
    let '(x, y, w, h) := get_position (tracker s) in
    let frame := draw frame (PutText "tracking" (x, h + 15) (45 # 100) FONT_GREEN 1) in
    let frame := draw frame (Rectangle (x, y) (w, h) BOX_MAGENTA 3) in
    (s, frame, (x, y, w, h)).

(** Lines 310-316: the stand-alone [if] for the dead zone. *)
Definition stop_block (usb : bool) (dz : DeadZone) (x y w h : Z)
  (lr : option PTZCommand) : list ActuatorCall * option PTZCommand :=
  if (x >? min_x dz) && (w <? max_x dz) && (y >? min_y dz) && (h <? max_y dz)
     && request_differs lr cmd_stop
  then ([actuate usb cmd_stop], Some cmd_stop)
  else ([], lr).

(** Lines 318-380: the [if] / [elif] chain.  Each test joins the position
    test with the comparison against [last_request], as the source does. *)
Definition direction_chain (usb : bool) (dz : DeadZone) (x y w h : Z)
  (lr : option PTZCommand) : list ActuatorCall * option PTZCommand :=
  if (y <? min_y dz) && (x <? min_x dz) && request_differs lr cmd_up_left
  then ([actuate usb cmd_up_left], Some cmd_up_left)
  else if (y <? min_y dz) && (w >? max_x dz) && request_differs lr cmd_up_right
  then ([actuate usb cmd_up_right], Some cmd_up_right)
  else if (h >? max_y dz) && (x <? min_x dz) && request_differs lr cmd_down_left
  then ([actuate usb cmd_down_left], Some cmd_down_left)
  else if (h >? max_y dz) && (w >? max_x dz) && request_differs lr cmd_down_right
  then ([actuate usb cmd_down_right], Some cmd_down_right)
  else if (y <? min_y dz) && request_differs lr cmd_up
  then ([actuate usb cmd_up], Some cmd_up)
  else if (h >? max_y dz) && request_differs lr cmd_down
  then ([actuate usb cmd_down], Some cmd_down)
  else if (x <? min_x dz) && request_differs lr cmd_left
  then ([actuate usb cmd_left], Some cmd_left)
  else if (w >? max_x dz) && request_differs lr cmd_right
  then ([actuate usb cmd_right], Some cmd_right)
  else ([], lr).

(** Lines 309-381, under [if self.ptz_controller is not None]. *)
Definition steer (usb : bool) (dz : DeadZone) (x y w h : Z)
  (lr : option PTZCommand) : list ActuatorCall * option PTZCommand :=
  let '(calls1, lr1) := stop_block usb dz x y w h lr in
  let '(calls2, lr2) := direction_chain usb dz x y w h lr1 in
  (calls1 ++ calls2, lr2).

Definition track_face (s : CameraWidget) (frame : Frame) (x y w h : Z) : Step Frame :=
  let dz := dead_zone frame in
  let frame :=
    draw frame (Rectangle (min_x dz, min_y dz) (max_x dz, max_y dz) BOX_BLUE 2) in
  let rgb_frame := frame in
  match tracked_name s with
  | None => mkStep (Raise AttributeError) s []   (* None.upper() *)
  | Some name =>
      let frame :=
        draw frame (PutText ("TRACKING " ++ Py.upper name) (20, 52) (7 # 10) FONT_RED 2) in
      let '(s, frame) := seed s frame rgb_frame x y w h in
      let '(s, frame, (x, y, w, h)) := reseed_or_predict s frame rgb_frame x y w h in
      match ptz_controller s with
      | Some _ =>
          let '(calls, lr) := steer (is_usb s) dz x y w h (last_request s) in
          mkStep (Ok frame) (with_last_request s lr) calls
      | None => mkStep (Ok frame) s []
      end
  end.

(** *** draw_on_frame, lines 228-266 *)

(** One iteration of the loop over the zipped snapshot, lines 236-249. *)
Definition annotate (acc : CameraWidget * Frame)
  (entry : (Z * Z * Z * Z) * string * string) : CameraWidget * Frame :=
  let '(s, frame) := acc in
  let '((top, right_, bottom, left_), name, confidence) := entry in
  let s :=
    if Py.str_eq_opt name (tracked_name s) then
      with_box (with_temp_tracked_name s (Some name))
        (Some left_) (Some top) (Some right_) (Some bottom)
    else s in
  let frame := draw frame (Rectangle (left_, top) (right_, bottom) FONT_GREEN 2) in
  let frame := draw frame (PutText name (left_ + 5, top - 5) (1 # 2) FONT_WHITE 1) in
  let frame :=
    draw frame (PutText confidence (right_ - 52, bottom - 5) (45 # 100) FONT_CYAN 1) in
  (s, frame).

(** The entries the loop runs over; empty when the thread or a list is [None]. *)
Definition snapshot (processor_thread : option ProcessorThread)
  : list ((Z * Z * Z * Z) * string * string) :=
  match processor_thread with
  | Some pt =>
      match face_locations pt, face_names pt, confidence_list pt with
      | Some locations, Some names, Some confidences => zip3 locations names confidences
      | _, _, _ => []
      end
  | None => []
  end.

(** Lines 254-266: clear the per-frame name, draw the FPS label, return. *)
Definition finish (s : CameraWidget) (frame : Frame) (fps : string)
  (calls : list ActuatorCall) : Step Frame :=
  mkStep (Ok (draw frame (PutText fps (20, 30) (7 # 10) FONT_RED 2)))
    (with_temp_tracked_name s None) calls.

Definition draw_on_frame (s : CameraWidget) (processor_thread : option ProcessorThread)
  (fps : string) (frame : Frame) : Step Frame :=
  let '(s, frame) := fold_left annotate (snapshot processor_thread) (s, frame) in
  match is_tracking s, track_x s, track_y s, track_w s, track_h s with
  | true, Some x, Some y, Some w, Some h =>
      let r := track_face s frame x y w h in
      match result r with
      | Ok frame => finish (widget r) frame fps (dispatched r)
      | Raise e => r
      end
  | _, _, _, _, _ => finish s frame fps []
  end.

(** Successive frames on one widget: the widget is carried from one call to
    the next (also past a call that raised), the actuator calls are
    concatenated. *)
Fixpoint run_frames (s : CameraWidget)
  (frames : list (option ProcessorThread * string * Frame))
  : CameraWidget * list ActuatorCall :=
  match frames with
  | [] => (s, [])
  | (pt, fps, frame) :: rest =>
      let r := draw_on_frame s pt fps frame in
      let '(s', calls) := run_frames (widget r) rest in
      (s', dispatched r ++ calls)
  end.

End Widget.

Arguments CameraWidget T : clear implicits.
Arguments Step T A : clear implicits.
Arguments mkStep {T A} _ _ _.
Arguments result {T A} _.
Arguments widget {T A} _.
Arguments dispatched {T A} _.

(* ------------------------------------------------------------------ *)
(** ** Derived notions used in the statements *)

Section Derived.

Context {T : Type} `{CorrelationTracker T}.

(** [lastBox]: the cached box, defined when all four attributes are set
    (the test of line 251). *)
Definition last_box (s : CameraWidget T) : option Rect :=
  match track_x s, track_y s, track_w s, track_h s with
  | Some x, Some y, Some w, Some h => Some (x, y, w, h)
  | _, _, _, _ => None
  end.

(** The four box attributes are set together or not at all. *)
Definition box_all_or_none (s : CameraWidget T) : Prop :=
  last_box s <> None \/
  (track_x s = None /\ track_y s = None /\ track_w s = None /\ track_h s = None).

(** The frame handed to the tracker by [track_face]: the input frame with the
    dead-zone rectangle drawn on it. *)
Definition rgb_frame_of (frame : Frame) : Frame :=
  let dz := dead_zone frame in
  draw frame (Rectangle (min_x dz, min_y dz) (max_x dz, max_y dz) BOX_BLUE 2).

(** The box [track_face] steers on: the local [x, y, w, h] after lines
    287-307. *)
Definition steering_box (s : CameraWidget T) (frame : Frame) (x y w h : Z) : Rect :=
  let rgb := rgb_frame_of frame in
  let '(s1, f1) := seed s frame rgb x y w h in
  snd (reseed_or_predict s1 f1 rgb x y w h).

(** The tracker after lines 287-307 of [track_face]. *)
Definition tracker_after (s : CameraWidget T) (frame : Frame) (x y w h : Z) : T :=
  let rgb := rgb_frame_of frame in
  let t1 := if track_started s then tracker s
            else start_track (tracker s) rgb (x, y, w, h) in
  if Py.opt_str_eq (temp_tracked_name s) (tracked_name s)
  then start_track t1 rgb (x, y, w, h)
  else update t1 rgb.

(** The widget and the frame after the loop of [draw_on_frame]. *)
Definition annotated (s : CameraWidget T) (pt : option ProcessorThread) (frame : Frame)
  : CameraWidget T * Frame :=
  fold_left annotate (snapshot pt) (s, frame).

(** The last snapshot entry labelled [name], as [(left, top, right, bottom)]. *)
Fixpoint last_match (entries : list ((Z * Z * Z * Z) * string * string))
  (name : string) : option Rect :=
  match entries with
  | [] => None
  | ((top, right_, bottom, left_), n, _) :: rest =>
      match last_match rest name with
      | Some b => Some b
      | None => if String.eqb n name then Some (left_, top, right_, bottom) else None
      end
  end.

(** No snapshot entry is labelled with the tracked name. *)
Definition no_match (entries : list ((Z * Z * Z * Z) * string * string))
  (name : option string) : Prop :=
  forall e, In e entries -> Py.str_eq_opt (snd (fst e)) name = false.

(** The steering block applied to a box. *)
Definition steer_on (usb : bool) (dz : DeadZone) (box : Rect)
  (lr : option PTZCommand) : list ActuatorCall * option PTZCommand :=
  let '(x, y, w, h) := box in steer usb dz x y w h lr.

(** No frame of the run shows the name in its snapshot. *)
Definition unseen (name : option string)
  (frames : list (option ProcessorThread * string * Frame)) : Prop :=
  forall e, In e frames -> no_match (snapshot (fst (fst e))) name.

(** What holds between any two operations on the widget: the box attributes
    are set together, and the per-frame name is clear. *)
Definition settled (s : CameraWidget T) : Prop :=
  box_all_or_none s /\ temp_tracked_name s = None.

End Derived.

(* ------------------------------------------------------------------ *)
(** ** The specification's wording, for comparison with the code *)

Module Spec.

(** Section 4.4: the priority order, first match wins, with no reference to
    the last command. *)
Definition classify (dz : DeadZone) (x y w h : Z) : option PTZCommand :=
  if (x >? min_x dz) && (w <? max_x dz) && (y >? min_y dz) && (h <? max_y dz)
  then Some cmd_stop
  else if (y <? min_y dz) && (x <? min_x dz) then Some cmd_up_left
  else if (y <? min_y dz) && (w >? max_x dz) then Some cmd_up_right
  else if (h >? max_y dz) && (x <? min_x dz) then Some cmd_down_left
  else if (h >? max_y dz) && (w >? max_x dz) then Some cmd_down_right
  else if y <? min_y dz then Some cmd_up
  else if h >? max_y dz then Some cmd_down
  else if x <? min_x dz then Some cmd_left
  else if w >? max_x dz then Some cmd_right
  else None.

(** Section 8: the dead zone as exact rationals [(w/9.2, w/1.2, h/18, h/1.6)],
    with [min < max] on both axes. *)
Definition dead_zone_exact (frame : Frame) : Prop :=
  let dz := dead_zone frame in
  min_x dz < max_x dz /\ min_y dz < max_y dz /\
  (inject_Z (min_x dz) == inject_Z (shape1 frame) / 9.2)%Q /\
  (inject_Z (max_x dz) == inject_Z (shape1 frame) / 1.2)%Q /\
  (inject_Z (min_y dz) == inject_Z (shape0 frame) / 18)%Q /\
  (inject_Z (max_y dz) == inject_Z (shape0 frame) / 1.6)%Q.

Section WithTracker.

Context {T : Type} `{CorrelationTracker T}.

(** Section 3: the reset state, [trackActive=false], [lastBox=none],
    [lastCommand=none]. *)
Definition reset (s : CameraWidget T) : Prop :=
  track_started s = false /\ last_box s = None /\ last_request s = None.

(** Section 3: a tracker instance exists iff [trackActive]; [lastBox] is
    defined iff [trackActive].  The widget binds [self.tracker] in
    [__init__] and never rebinds it, so the instance exists in every state. *)
Definition tracker_exists (s : CameraWidget T) : Prop := exists t, tracker s = t.

Definition invariant (s : CameraWidget T) : Prop :=
  (tracker_exists s <-> track_started s = true) /\
  (last_box s <> None <-> track_started s = true).

(** Section 8, diagonal precedence, at one call of [track_face]: a steering
    box beyond [max_y] and [max_x] leaves [down_right] as the request. *)
Definition diagonal_precedence (s : CameraWidget T) (frame : Frame) (x y w h : Z)
  : Prop :=
  let dz := dead_zone frame in
  let '(bx, by_, bw, bh) := steering_box s frame x y w h in
  bh > max_y dz -> bw > max_x dz ->
  last_request (widget (track_face s frame x y w h)) = Some cmd_down_right.


End WithTracker.

End Spec.

(* ------------------------------------------------------------------ *)
(** ** A concrete tracker and concrete runs *)

Module Demo.

(** A tracker that remembers the box it was started on and drifts by a fixed
    offset at each update. *)
Definition DriftTracker := Rect.

#[global] Instance drift : CorrelationTracker DriftTracker := {|
  correlation_tracker := (0, 0, 0, 0);
  start_track := fun _ _ r => r;
  update := fun t _ => let '(l, u, r, d) := t in (l + 3, u + 2, r + 3, d + 2);
  get_position := fun t => t
|}.

Definition frame_800x600 : Frame := mkFrame 600 800 0 [].

(** A snapshot with one face, given as [(left, top, right, bottom)]. *)
Definition seen (name : string) (box : Rect) : option ProcessorThread :=
  let '(l, u, r, d) := box in
  Some (mkProcessorThread (Some [(u, r, d, l)]) (Some [name]) (Some ["0.93"%string])).

(** A snapshot with no face. *)
Definition nobody : option ProcessorThread :=
  Some (mkProcessorThread (Some []) (Some []) (Some [])).

(** A widget on an NDI source with PTZ, told to track Alice, tracking on. *)
Definition armed : CameraWidget DriftTracker :=
  widget (set_tracking (set_tracked_name (init (Some 1%nat)) (Some "Alice"%string))).

(** A face in the upper-left corner, outside the dead zone on two sides. *)
Definition corner_box : Rect := (10, 10, 60, 20).

(** A face inside the dead zone. *)
Definition centre_box : Rect := (200, 100, 400, 300).

(** A face covering the whole frame. *)
Definition full_box : Rect := (0, 0, 800, 600).

(** [armed] after one frame that shows Alice inside the dead zone. *)
Definition following : CameraWidget DriftTracker :=
  widget (draw_on_frame armed (seen "Alice" centre_box) "FPS: 0" frame_800x600).

(** [armed] after the loop of a frame that shows Alice at [box]. *)
Definition seeing (box : Rect) : CameraWidget DriftTracker :=
  fst (annotated armed (seen "Alice" box) frame_800x600).

(** A face beyond the bottom and the right of the dead zone only. *)
Definition low_right_box : Rect := (700, 50, 750, 400).

(** [following] after the tracked name is cleared. *)
Definition unnamed : CameraWidget DriftTracker := set_tracked_name following None.

(** [following] after the tracked name is changed. *)
Definition renamed : CameraWidget DriftTracker :=
  set_tracked_name following (Some "Bob"%string).

(** Two frames that do not show Alice. *)
Definition frames_without_alice : list (option ProcessorThread * string * Frame) :=
  [(nobody, "FPS: 0"%string, frame_800x600);
   (seen "Bob" corner_box, "FPS: 0"%string, frame_800x600)].

(** Two frames that show her in the corner. *)
Definition frames_with_alice : list (option ProcessorThread * string * Frame) :=
  [(seen "Alice" corner_box, "FPS: 0"%string, frame_800x600);
   (seen "Alice" corner_box, "FPS: 0"%string, frame_800x600)].

(** As [armed], on a source without PTZ. *)
Definition armed_without_ptz : CameraWidget DriftTracker :=
  widget (set_tracking (set_tracked_name (init None) (Some "Alice"%string))).

(** A face beyond the left side of the dead zone only. *)
Definition left_box : Rect := (10, 40, 50, 60).

(** [n] frames that show Alice at [box]. *)
Definition frames_showing (box : Rect) (n : nat)
  : list (option ProcessorThread * string * Frame) :=
  repeat (seen "Alice" box, "FPS: 0"%string, frame_800x600) n.

(** A widget whose controller is a USB one, put in place by [set_ptz]. *)
Definition usb_widget : CameraWidget DriftTracker :=
  widget (set_ptz (init None) (Some 2%nat) true).

(** [armed] after one frame that shows Alice in the upper-left corner. *)
Definition cornered : CameraWidget DriftTracker :=
  widget (draw_on_frame armed (seen "Alice" corner_box) "FPS: 0" frame_800x600).

End Demo.

(* ------------------------------------------------------------------ *)
(** ** Steering: the dead-zone chain and its debounce *)

Section Steering.

Variables (usb : bool) (dz : DeadZone) (x y w h : Z).

Lemma request_differs_true (lr : option PTZCommand) (c : PTZCommand) :
  lr <> Some c -> request_differs lr c = true.
Proof.
  destruct lr as [c'|]; simpl; [|reflexivity].
  intros Hne. destruct c', c; simpl; try reflexivity; exfalso; apply Hne; reflexivity.
Qed.

Lemma request_differs_neq (lr : option PTZCommand) (c : PTZCommand) :
  request_differs lr c = true -> lr <> Some c.
Proof.
  intros Hd E. subst lr. destruct c; discriminate Hd.
Qed.

Lemma request_differs_same (c : PTZCommand) : request_differs (Some c) c = false.
Proof. destruct c; reflexivity. Qed.

(** Inside the dead zone no position test of the chain holds. *)
Lemma chain_silent_inside (lr : option PTZCommand) :
  x > min_x dz -> w < max_x dz -> y > min_y dz -> h < max_y dz ->
  direction_chain usb dz x y w h lr = ([], lr).
Proof.
  intros Hx Hw Hy Hh. unfold direction_chain.
  rewrite !Z.gtb_ltb.
  replace (y <? min_y dz) with false by (symmetry; apply Z.ltb_ge; lia).
  replace (x <? min_x dz) with false by (symmetry; apply Z.ltb_ge; lia).
  replace (max_x dz <? w) with false by (symmetry; apply Z.ltb_ge; lia).
  replace (max_y dz <? h) with false by (symmetry; apply Z.ltb_ge; lia).
  reflexivity.
Qed.

(** Every dispatch of the chain is of a command that differs from the last
    request, and is recorded. *)
Lemma chain_guarded (lr : option PTZCommand) :
  direction_chain usb dz x y w h lr = ([], lr) \/
  exists c, direction_chain usb dz x y w h lr = ([actuate usb c], Some c) /\
            lr <> Some c /\ c <> cmd_stop.
Proof.
  unfold direction_chain.
  repeat match goal with
         | |- context [if ?p && request_differs lr ?c then _ else _] =>
             destruct (request_differs lr c) eqn:?; [destruct p|
               replace (p && false) with false by (symmetry; apply andb_false_r)];
             cbn [andb]
         end;
    first [ left; reflexivity
          | right; eexists; split; [reflexivity|];
            split; [apply request_differs_neq; assumption | discriminate] ].
Qed.

Lemma stop_guarded (lr : option PTZCommand) :
  stop_block usb dz x y w h lr = ([], lr) \/
  (stop_block usb dz x y w h lr = ([actuate usb cmd_stop], Some cmd_stop) /\
   lr <> Some cmd_stop /\
   x > min_x dz /\ w < max_x dz /\ y > min_y dz /\ h < max_y dz).
Proof.
  unfold stop_block.
  destruct ((x >? min_x dz) && (w <? max_x dz) && (y >? min_y dz) && (h <? max_y dz)
            && request_differs lr cmd_stop) eqn:E; [right|left; reflexivity].
  apply andb_prop in E as [E Hd]. apply andb_prop in E as [E Hh].
  apply andb_prop in E as [E Hy]. apply andb_prop in E as [Hx Hw].
  split; [reflexivity|]. split; [apply request_differs_neq; assumption|].
  rewrite Z.gtb_ltb in Hx, Hy. apply Z.ltb_lt in Hx, Hw, Hy, Hh. lia.
Qed.

(** One call of the steering block: nothing is sent and [last_request] is
    kept, or exactly one command is sent, it differs from the previous
    [last_request], and it becomes the new [last_request]. *)
Lemma steer_guarded (lr : option PTZCommand) :
  steer usb dz x y w h lr = ([], lr) \/
  exists c, steer usb dz x y w h lr = ([actuate usb c], Some c) /\ lr <> Some c.
Proof.
  unfold steer.
  destruct (stop_guarded lr) as [E | (E & Hne & Hx & Hw & Hy & Hh)]; rewrite E.
  - destruct (chain_guarded lr) as [E' | (c & E' & Hne & _)]; rewrite E'.
    + left; reflexivity.
    + right; exists c; split; [reflexivity | assumption].
  - rewrite chain_silent_inside by assumption.
    right; exists cmd_stop; split; [reflexivity | assumption].
Qed.

Lemma steer_at_most_one (lr : option PTZCommand) :
  (List.length (fst (steer usb dz x y w h lr)) <= 1)%nat.
Proof.
  destruct (steer_guarded lr) as [E | (c & E & _)]; rewrite E; simpl; lia.
Qed.

(** The code against the specification's order: a command that differs from
    the last request is the one the priority order names, and it is sent. *)
Lemma steer_fresh (lr : option PTZCommand) (c : PTZCommand) :
  Spec.classify dz x y w h = Some c -> lr <> Some c ->
  steer usb dz x y w h lr = ([actuate usb c], Some c).
Proof.
  unfold Spec.classify. intros Hc Hne.
  destruct ((x >? min_x dz) && (w <? max_x dz) && (y >? min_y dz) && (h <? max_y dz))
    eqn:E0.
  - injection Hc as <-. unfold steer, stop_block.
    rewrite E0, (request_differs_true _ _ Hne). cbn [andb].
    apply andb_prop in E0 as [E0 Hh]. apply andb_prop in E0 as [E0 Hy].
    apply andb_prop in E0 as [Hx Hw].
    rewrite Z.gtb_ltb in Hx, Hy. apply Z.ltb_lt in Hx, Hw, Hy, Hh.
    rewrite chain_silent_inside by lia. reflexivity.
  - unfold steer, stop_block. rewrite E0. cbn [andb]. unfold direction_chain.
    repeat match type of Hc with
           | (if ?b then _ else _) = _ => destruct b eqn:?
           end;
      try discriminate Hc; injection Hc as <-;
      repeat match goal with
             | E : ?b = _ |- context [?b] => rewrite E; cbn [andb]
             end;
      rewrite (request_differs_true _ _ Hne); reflexivity.
Qed.

(** Inside the dead zone the debounce holds: once [stop] is the last request
    nothing more is sent. *)
Lemma steer_stop_debounced :
  Spec.classify dz x y w h = Some cmd_stop ->
  steer usb dz x y w h (Some cmd_stop) = ([], Some cmd_stop).
Proof.
  unfold Spec.classify. intros Hc.
  destruct ((x >? min_x dz) && (w <? max_x dz) && (y >? min_y dz) && (h <? max_y dz))
    eqn:E0.
  - unfold steer, stop_block. rewrite E0. cbn.
    apply andb_prop in E0 as [E0 Hh]. apply andb_prop in E0 as [E0 Hy].
    apply andb_prop in E0 as [Hx Hw].
    rewrite Z.gtb_ltb in Hx, Hy. apply Z.ltb_lt in Hx, Hw, Hy, Hh.
    rewrite chain_silent_inside by lia. reflexivity.
  - repeat match type of Hc with
           | (if ?b then _ else _) = _ => destruct b
           end; discriminate Hc.
Qed.

(** On a corner the debounce does not hold: with the diagonal command as the
    last request, the chain goes on to a single-axis branch and sends it. *)
Lemma steer_up_left_falls_through :
  y < min_y dz -> x < min_x dz -> w <= max_x dz -> h <= max_y dz ->
  Spec.classify dz x y w h = Some cmd_up_left /\
  steer usb dz x y w h (Some cmd_up_left) = ([actuate usb cmd_up], Some cmd_up).
Proof.
  intros Hy Hx Hw Hh.
  unfold Spec.classify, steer, stop_block, direction_chain.
  rewrite !Z.gtb_ltb.
  replace (y <? min_y dz) with true by (symmetry; apply Z.ltb_lt; lia).
  replace (x <? min_x dz) with true by (symmetry; apply Z.ltb_lt; lia).
  replace (min_x dz <? x) with false by (symmetry; apply Z.ltb_ge; lia).
  replace (max_x dz <? w) with false by (symmetry; apply Z.ltb_ge; lia).
  replace (max_y dz <? h) with false by (symmetry; apply Z.ltb_ge; lia).
  split; reflexivity.
Qed.

End Steering.

(* ------------------------------------------------------------------ *)
(** ** track_face and draw_on_frame: structure of one call *)

Ltac open_track_face :=
  unfold track_face, steering_box, tracker_after, rgb_frame_of, seed, reseed_or_predict.

Ltac case_track_face s :=
  destruct (track_started s) eqn:?; cbn;
  repeat match goal with
         | |- context [Py.opt_str_eq ?a ?b] => destruct (Py.opt_str_eq a b) eqn:?
         end; cbn;
  repeat match goal with
         | |- context [get_position ?t] => destruct (get_position t) as [[[? ?] ?] ?]
         end; cbn.

Section Frames.

Context {T : Type} `{CorrelationTracker T}.

Implicit Types (s : CameraWidget T) (frame : Frame).

(** With no name to track, [track_face] raises at line 285, before the
    tracker and the actuator are touched. *)
Lemma track_face_raises s frame x y w h :
  tracked_name s = None ->
  track_face s frame x y w h = mkStep (Raise AttributeError) s [].
Proof. intros Hn. unfold track_face. rewrite Hn. reflexivity. Qed.

(** With a name, [track_face] returns the frame; what it sends and the request
    it leaves are those of the steering block on the steering box. *)
Lemma track_face_steers s frame x y w h name bx by_ bw bh :
  tracked_name s = Some name ->
  steering_box s frame x y w h = (bx, by_, bw, bh) ->
  (exists frame', result (track_face s frame x y w h) = Ok frame') /\
  dispatched (track_face s frame x y w h) =
    match ptz_controller s with
    | Some _ => fst (steer (is_usb s) (dead_zone frame) bx by_ bw bh (last_request s))
    | None => []
    end /\
  last_request (widget (track_face s frame x y w h)) =
    match ptz_controller s with
    | Some _ => snd (steer (is_usb s) (dead_zone frame) bx by_ bw bh (last_request s))
    | None => last_request s
    end.
Proof.
  intros Hn. open_track_face. unfold is_usb. rewrite Hn.
  case_track_face s; intros Hb; injection Hb as <- <- <- <-;
    destruct (ptz_controller s); cbn;
    try match goal with
        | |- context [steer ?a ?b ?c ?d ?e ?f ?g] => destruct (steer a b c d e f g)
        end; cbn; (split; [eexists; reflexivity | split; reflexivity]).
Qed.

(** The steering box is the box passed in when the name was seen in this
    frame, and the tracker's position otherwise. *)
Lemma steering_box_cases s frame x y w h :
  steering_box s frame x y w h =
    if Py.opt_str_eq (temp_tracked_name s) (tracked_name s)
    then (x, y, w, h)
    else get_position (tracker_after s frame x y w h).
Proof.
  open_track_face. case_track_face s; reflexivity.
Qed.

(** What [track_face] leaves in the widget besides [last_request]. *)
Lemma track_face_fields s frame x y w h name :
  tracked_name s = Some name ->
  let s' := widget (track_face s frame x y w h) in
  track_started s' = true /\
  tracker s' = tracker_after s frame x y w h /\
  track_x s' = track_x s /\ track_y s' = track_y s /\
  track_w s' = track_w s /\ track_h s' = track_h s /\
  temp_tracked_name s' = temp_tracked_name s /\
  tracked_name s' = tracked_name s /\
  is_tracking s' = is_tracking s /\
  ptz_controller s' = ptz_controller s /\ ptz_is_usb s' = ptz_is_usb s.
Proof.
  intros Hn. open_track_face. unfold is_usb. rewrite Hn.
  case_track_face s; destruct (ptz_controller s) eqn:Hc; cbn;
    try match goal with
        | |- context [steer ?a ?b ?c ?d ?e ?f ?g] => destruct (steer a b c d e f g)
        end; cbn; rewrite ?Hn, ?Hc; repeat split; try reflexivity; try assumption;
    rewrite Hn in *; congruence.
Qed.

(** *** The loop over the snapshot *)

Lemma annotate_tracked_name s frame e :
  tracked_name (fst (annotate (s, frame) e)) = tracked_name s.
Proof.
  destruct e as [[[[[top right_] bottom] left_] name] conf]. cbn.
  destruct (Py.str_eq_opt name (tracked_name s)); reflexivity.
Qed.

Lemma annotate_shape s frame e :
  shape0 (snd (annotate (s, frame) e)) = shape0 frame /\
  shape1 (snd (annotate (s, frame) e)) = shape1 frame.
Proof.
  destruct e as [[[[[top right_] bottom] left_] name] conf]. split; reflexivity.
Qed.

Lemma dead_zone_shape frame frame' :
  shape0 frame' = shape0 frame -> shape1 frame' = shape1 frame ->
  dead_zone frame' = dead_zone frame.
Proof. intros H0 H1. unfold dead_zone. rewrite H0, H1. reflexivity. Qed.

Lemma loop_shape entries : forall s frame,
  shape0 (snd (fold_left annotate entries (s, frame))) = shape0 frame /\
  shape1 (snd (fold_left annotate entries (s, frame))) = shape1 frame.
Proof.
  induction entries as [|e rest IH]; intros s frame; [split; reflexivity|].
  cbn [fold_left]. destruct (annotate (s, frame) e) as [s1 f1] eqn:E.
  destruct (IH s1 f1) as [I0 I1]. rewrite I0, I1.
  pose proof (annotate_shape s frame e) as [A0 A1]. rewrite E in A0, A1. cbn in A0, A1.
  split; assumption.
Qed.

Lemma annotated_dead_zone s pt frame :
  dead_zone (snd (annotated s pt frame)) = dead_zone frame.
Proof.
  unfold annotated. destruct (loop_shape (snapshot pt) s frame) as [H0 H1].
  apply dead_zone_shape; assumption.
Qed.

(** Without an entry labelled with the tracked name the loop leaves the
    widget as it is. *)
Lemma loop_no_match entries : forall s frame,
  no_match entries (tracked_name s) ->
  fst (fold_left annotate entries (s, frame)) = s.
Proof.
  induction entries as [|e rest IH]; intros s frame Hno; [reflexivity|].
  cbn [fold_left].
  assert (He : Py.str_eq_opt (snd (fst e)) (tracked_name s) = false)
    by (apply Hno; left; reflexivity).
  destruct e as [[[[[top right_] bottom] left_] name] conf]. cbn in He.
  cbn [annotate]. rewrite He. apply IH.
  intros e' Hin. apply Hno. right; assumption.
Qed.

Lemma last_match_none entries name :
  last_match entries name = None -> no_match entries (Some name).
Proof.
  induction entries as [|e rest IH]; intros Hl e' Hin; [destruct Hin|].
  destruct e as [[[[[top right_] bottom] left_] n] conf]. cbn in Hl.
  destruct (last_match rest name) eqn:Hr; [discriminate|].
  destruct (String.eqb n name) eqn:En; [discriminate|].
  destruct Hin as [<- | Hin]; [exact En | apply IH; [reflexivity | assumption]].
Qed.

(** With one, the loop leaves the box of the last such entry in
    [track_x] ... [track_h] and the name in [temp_tracked_name]. *)
Lemma loop_match entries : forall s frame name l u r d,
  tracked_name s = Some name ->
  last_match entries name = Some (l, u, r, d) ->
  fst (fold_left annotate entries (s, frame)) =
    with_box (with_temp_tracked_name s (Some name)) (Some l) (Some u) (Some r) (Some d).
Proof.
  induction entries as [|e rest IH]; intros s frame name l u r d Hn Hl; [discriminate|].
  cbn [fold_left].
  pose proof (annotate_tracked_name s frame e) as Ht.
  destruct e as [[[[[top right_] bottom] left_] n] conf]. cbn in Hl.
  destruct (annotate (s, frame) (top, right_, bottom, left_, n, conf)) as [s1 f1] eqn:E.
  cbn in Ht. rewrite Hn in Ht.
  destruct (last_match rest name) as [b|] eqn:Hr.
  - injection Hl as ->. rewrite (IH s1 f1 name l u r d Ht Hr).
    cbn in E. rewrite Hn in E. injection E as <- _. cbn.
    destruct (String.eqb n name); reflexivity.
  - destruct (String.eqb n name) eqn:En; [|discriminate].
    injection Hl as <- <- <- <-. apply String.eqb_eq in En as ->.
    rewrite loop_no_match
      by (rewrite Ht; apply last_match_none; assumption).
    cbn in E. rewrite Hn in E. cbn in E. rewrite String.eqb_refl in E.
    injection E as <- _. reflexivity.
Qed.

(** *** One call of draw_on_frame *)

Lemma draw_on_frame_idle s pt fps frame :
  is_tracking (fst (annotated s pt frame)) = false \/
  last_box (fst (annotated s pt frame)) = None ->
  draw_on_frame s pt fps frame =
    finish (fst (annotated s pt frame)) (snd (annotated s pt frame)) fps [].
Proof.
  unfold draw_on_frame, annotated, last_box.
  destruct (fold_left annotate (snapshot pt) (s, frame)) as [s1 f1]. cbn [fst snd].
  intros [Hoff | Hbox].
  - rewrite Hoff. reflexivity.
  - destruct (is_tracking s1), (track_x s1), (track_y s1), (track_w s1), (track_h s1);
      try reflexivity; discriminate Hbox.
Qed.

Lemma draw_on_frame_tracking s pt fps frame x y w h :
  is_tracking (fst (annotated s pt frame)) = true ->
  last_box (fst (annotated s pt frame)) = Some (x, y, w, h) ->
  draw_on_frame s pt fps frame =
    let r := track_face (fst (annotated s pt frame)) (snd (annotated s pt frame)) x y w h in
    match result r with
    | Ok frame' => finish (widget r) frame' fps (dispatched r)
    | Raise _ => r
    end.
Proof.
  unfold draw_on_frame, annotated, last_box.
  destruct (fold_left annotate (snapshot pt) (s, frame)) as [s1 f1]. cbn [fst snd].
  intros Hon Hbox. rewrite Hon.
  destruct (track_x s1), (track_y s1), (track_w s1), (track_h s1);
    try discriminate Hbox.
  injection Hbox as -> -> -> ->. reflexivity.
Qed.

(** The loop changes nothing but the box and the per-frame name. *)
Lemma annotated_controls s pt frame :
  let s1 := fst (annotated s pt frame) in
  track_started s1 = track_started s /\ is_tracking s1 = is_tracking s /\
  tracked_name s1 = tracked_name s /\ tracker s1 = tracker s /\
  ptz_controller s1 = ptz_controller s /\ ptz_is_usb s1 = ptz_is_usb s /\
  last_request s1 = last_request s.
Proof.
  unfold annotated. generalize (snapshot pt) as entries. intros entries.
  revert s frame. induction entries as [|e rest IH]; intros s frame.
  - cbn. repeat split.
  - cbn [fold_left]. destruct (annotate (s, frame) e) as [s1 f1] eqn:E.
    specialize (IH s1 f1). cbn zeta in IH |- *.
    destruct IH as (I1 & I2 & I3 & I4 & I5 & I6 & I7).
    rewrite I1, I2, I3, I4, I5, I6, I7.
    destruct e as [[[[[top right_] bottom] left_] name] conf]. cbn in E.
    injection E as <- _.
    destruct (Py.str_eq_opt name (tracked_name s)); repeat split.
Qed.

End Frames.

(* ------------------------------------------------------------------ *)
(** ** The dead zone *)

Section DeadZoneBounds.

Lemma all_from_spec (p : Z -> bool) (n : nat) : forall k,
  all_from n k p = true -> forall i, k <= i < k + Z.of_nat n -> p i = true.
Proof.
  induction n as [|n IH]; intros k Hall i Hi; [lia|].
  cbn [all_from] in Hall. apply andb_prop in Hall as [Hk Hrest].
  destruct (Z.eq_dec i k) as [->|Hne]; [assumption|].
  apply (IH (k + 1) Hrest). lia.
Qed.

(** The binary64 evaluation, run on every width up to [MAX_DIM]. *)
Lemma widths_checked : all_from (Z.to_nat (MAX_DIM + 1)) 0 width_agrees = true.
Proof. vm_compute. reflexivity. Qed.

Lemma heights_checked : all_from (Z.to_nat (MAX_DIM + 1)) 0 height_agrees = true.
Proof. vm_compute. reflexivity. Qed.

Lemma dead_zone_integer_division (frame : Frame) :
  0 <= shape1 frame <= MAX_DIM -> 0 <= shape0 frame <= MAX_DIM ->
  dead_zone frame =
    mkDeadZone (10 * shape1 frame / 92) (10 * shape1 frame / 12)
               (shape0 frame / 18) (10 * shape0 frame / 16).
Proof.
  intros Hw Hh.
  pose proof (all_from_spec _ _ _ widths_checked (shape1 frame)) as Cw.
  pose proof (all_from_spec _ _ _ heights_checked (shape0 frame)) as Ch.
  rewrite Z2Nat.id in Cw, Ch by (unfold MAX_DIM; lia).
  specialize (Cw ltac:(lia)). specialize (Ch ltac:(lia)).
  apply andb_prop in Cw as [C1 C2]. apply andb_prop in Ch as [C3 C4].
  apply Z.eqb_eq in C1, C2, C3, C4.
  unfold dead_zone. rewrite C1, C2, C3, C4. reflexivity.
Qed.

Lemma Qfloor_div_92 (w : Z) : Qfloor (inject_Z w / 9.2) = 10 * w / 92.
Proof. cbv [Qfloor Qdiv Qmult Qinv inject_Z Qnum Qden Pos.mul]. f_equal; lia. Qed.

Lemma Qfloor_div_12 (w : Z) : Qfloor (inject_Z w / 1.2) = 10 * w / 12.
Proof. cbv [Qfloor Qdiv Qmult Qinv inject_Z Qnum Qden Pos.mul]. f_equal; lia. Qed.

Lemma Qfloor_div_18 (h : Z) : Qfloor (inject_Z h / 18) = h / 18.
Proof. cbv [Qfloor Qdiv Qmult Qinv inject_Z Qnum Qden Pos.mul]. f_equal; lia. Qed.

Lemma Qfloor_div_16 (h : Z) : Qfloor (inject_Z h / 1.6) = 10 * h / 16.
Proof. cbv [Qfloor Qdiv Qmult Qinv inject_Z Qnum Qden Pos.mul]. f_equal; lia. Qed.

(** C3 (amended): for frame dimensions with [160 <= w <= 16384] and
    [120 <= h <= 16384], the dead zone computed by [track_face] satisfies
    [min_x < max_x] and [min_y < max_y], and its bounds are the integer
    parts of [w/9.2], [w/1.2], [h/18] and [h/1.6]: the quotients are
    truncated by [int()], they are not kept as rationals. *)
Theorem dead_zone_truncated (frame : Frame) :
  160 <= shape1 frame <= MAX_DIM -> 120 <= shape0 frame <= MAX_DIM ->
  let dz := dead_zone frame in
  min_x dz < max_x dz /\ min_y dz < max_y dz /\
  min_x dz = Qfloor (inject_Z (shape1 frame) / 9.2) /\
  max_x dz = Qfloor (inject_Z (shape1 frame) / 1.2) /\
  min_y dz = Qfloor (inject_Z (shape0 frame) / 18) /\
  max_y dz = Qfloor (inject_Z (shape0 frame) / 1.6).
Proof.
  intros Hw Hh dz. subst dz.
  rewrite dead_zone_integer_division by lia.
  rewrite Qfloor_div_92, Qfloor_div_12, Qfloor_div_18, Qfloor_div_16.
  cbn [min_x max_x min_y max_y].
  repeat split; try reflexivity; Z.to_euclidean_division_equations; lia.
Qed.

End DeadZoneBounds.

(** The 800x600 frame of the specification's scenario: the dead zone is
    [(86, 666, 33, 375)]. *)
Lemma dead_zone_truncated_800x600 :
  (160 <= 800 <= MAX_DIM /\ 120 <= 600 <= MAX_DIM) /\
  dead_zone Demo.frame_800x600 = mkDeadZone 86 666 33 375 /\
  (let dz := dead_zone Demo.frame_800x600 in
   min_x dz < max_x dz /\ min_y dz < max_y dz /\
   min_x dz = Qfloor (inject_Z 800 / 9.2) /\
   max_x dz = Qfloor (inject_Z 800 / 1.2) /\
   min_y dz = Qfloor (inject_Z 600 / 18) /\
   max_y dz = Qfloor (inject_Z 600 / 1.6)).
Proof.
  split; [unfold MAX_DIM; lia|].
  split; [vm_compute; reflexivity|].
  apply (dead_zone_truncated Demo.frame_800x600); cbn; unfold MAX_DIM; lia.
Defined.

(** C3, as stated, fails on the 800x600 frame: [min_x] is [86], while
    [800/9.2] is not an integer. *)
Lemma dead_zone_not_exact_800x600 : ~ Spec.dead_zone_exact Demo.frame_800x600.
Proof.
  unfold Spec.dead_zone_exact. intros (_ & _ & E & _).
  vm_compute in E. discriminate E.
Qed.

(* ------------------------------------------------------------------ *)
(** ** Properties of the per-frame update *)

Section Update.

Context {T : Type} `{CorrelationTracker T}.

Implicit Types (s : CameraWidget T) (frame : Frame) (pt : option ProcessorThread).

(** C8: one call of [draw_on_frame] makes at most one actuator call, whatever
    the widget, the snapshot and the frame are; the stop branch and the
    direction chain never both fire. *)
Theorem at_most_one_dispatch s pt fps frame :
  (List.length (dispatched (draw_on_frame s pt fps frame)) <= 1)%nat.
Proof.
  destruct (is_tracking (fst (annotated s pt frame))) eqn:Hon;
    [|rewrite draw_on_frame_idle by (left; assumption); cbn; lia].
  destruct (last_box (fst (annotated s pt frame))) as [[[[x y] w] h]|] eqn:Hbox;
    [|rewrite draw_on_frame_idle by (right; assumption); cbn; lia].
  rewrite (draw_on_frame_tracking _ _ _ _ _ _ _ _ Hon Hbox). cbn zeta.
  set (s1 := fst (annotated s pt frame)). set (f1 := snd (annotated s pt frame)).
  destruct (tracked_name s1) as [name|] eqn:Hn.
  - destruct (steering_box s1 f1 x y w h) as [[[bx by_] bw] bh] eqn:Hb.
    destruct (track_face_steers _ _ _ _ _ _ _ _ _ _ _ Hn Hb) as ((fr & Hr) & Hd & _).
    rewrite Hr. cbn [finish dispatched]. rewrite Hd.
    destruct (ptz_controller s1); [apply steer_at_most_one | cbn; lia].
  - rewrite (track_face_raises _ _ _ _ _ _ Hn). cbn. lia.
Qed.

(** C10: with an actuator configured, [set_tracking] sends a stop
    ([move_stop] to a USB controller, pan and tilt speed zero otherwise) and
    leaves [last_request] at [None], whichever way the toggle goes; with
    none configured it sends nothing and [last_request] keeps its value.
    In both cases [is_tracking] is negated. *)
Theorem set_tracking_stops s :
  is_tracking (widget (set_tracking s)) = negb (is_tracking s) /\
  match ptz_controller s with
  | Some _ =>
      dispatched (set_tracking s) =
        [if is_usb s then UsbCall move_stop else NdiPanTiltSpeed 0 0] /\
      last_request (widget (set_tracking s)) = None
  | None =>
      dispatched (set_tracking s) = [] /\
      last_request (widget (set_tracking s)) = last_request s
  end.
Proof.
  unfold set_tracking, is_usb, actuate. cbn.
  destruct (ptz_controller s); cbn; [|repeat split].
  destruct (ptz_is_usb s) as [[|]|]; repeat split.
Qed.

(** A frame that shows the tracked name while tracking is on: the loop
    caches the box of the last such entry and [track_face] is entered with
    it, the per-frame name being set. *)
Lemma seen_frame_setup s pt fps frame name l u rt d :
  is_tracking s = true ->
  tracked_name s = Some name ->
  last_match (snapshot pt) name = Some (l, u, rt, d) ->
  let s1 := fst (annotated s pt frame) in
  let f1 := snd (annotated s pt frame) in
  draw_on_frame s pt fps frame =
    (let r := track_face s1 f1 l u rt d in
     match result r with
     | Ok frame' => finish (widget r) frame' fps (dispatched r)
     | Raise _ => r
     end) /\
  tracked_name s1 = Some name /\
  last_box s1 = Some (l, u, rt, d) /\
  Py.opt_str_eq (temp_tracked_name s1) (tracked_name s1) = true /\
  steering_box s1 f1 l u rt d = (l, u, rt, d).
Proof.
  intros Hon Hn Hm. cbn zeta.
  pose proof (annotated_controls s pt frame) as Hc. cbn zeta in Hc.
  destruct Hc as (_ & C2 & C3 & _).
  assert (Hs1 : fst (annotated s pt frame) =
                with_box (with_temp_tracked_name s (Some name))
                  (Some l) (Some u) (Some rt) (Some d))
    by (unfold annotated; apply loop_match; assumption).
  assert (Hn1 : tracked_name (fst (annotated s pt frame)) = Some name) by congruence.
  assert (Hbox : last_box (fst (annotated s pt frame)) = Some (l, u, rt, d))
    by (rewrite Hs1; reflexivity).
  assert (Htemp : Py.opt_str_eq (temp_tracked_name (fst (annotated s pt frame)))
                    (tracked_name (fst (annotated s pt frame))) = true).
  { rewrite Hn1, Hs1. cbn. apply String.eqb_refl. }
  split; [apply draw_on_frame_tracking; [congruence | exact Hbox]|].
  split; [exact Hn1|]. split; [exact Hbox|]. split; [exact Htemp|].
  rewrite steering_box_cases, Htemp. reflexivity.
Qed.

(** What such a frame sends and records: the steering block on that box. *)
Lemma seen_frame_steers s pt fps frame name (B : Rect) :
  is_tracking s = true ->
  tracked_name s = Some name ->
  last_match (snapshot pt) name = Some B ->
  dispatched (draw_on_frame s pt fps frame) =
    match ptz_controller s with
    | Some _ => fst (steer_on (is_usb s) (dead_zone frame) B (last_request s))
    | None => []
    end /\
  last_request (widget (draw_on_frame s pt fps frame)) =
    match ptz_controller s with
    | Some _ => snd (steer_on (is_usb s) (dead_zone frame) B (last_request s))
    | None => last_request s
    end.
Proof.
  intros Hon Hn Hm. destruct B as [[[l u] rt] d].
  pose proof (annotated_controls s pt frame) as Hc. cbn zeta in Hc.
  destruct Hc as (_ & _ & _ & _ & C5 & C6 & C7).
  pose proof (seen_frame_setup s pt fps frame name l u rt d Hon Hn Hm) as Hs.
  cbn zeta in Hs. destruct Hs as (Hstep & Hn1 & _ & _ & Hsb).
  rewrite Hstep.
  destruct (track_face_steers _ _ _ _ _ _ _ _ _ _ _ Hn1 Hsb) as ((fr & Hr) & Hd & Hl).
  rewrite Hr. cbn [finish widget dispatched with_temp_tracked_name last_request].
  unfold is_usb in *. rewrite C5, C6, C7, annotated_dead_zone in Hd, Hl.
  split; [exact Hd | exact Hl].
Qed.

(** C5: when the snapshot holds an entry labelled with the tracked name (the
    last such entry having box [B]) and tracking is on, the update returns
    the frame, the tracker it leaves was started on [B], the box it steers on
    is [B] whatever the tracker would predict, and [B] is the cached box. *)
Theorem reseed_priority s pt fps frame name (B : Rect) :
  is_tracking s = true ->
  tracked_name s = Some name ->
  last_match (snapshot pt) name = Some B ->
  let r := draw_on_frame s pt fps frame in
  let rgb := rgb_frame_of (snd (annotated s pt frame)) in
  (exists frame', result r = Ok frame') /\
  (exists t0, tracker (widget r) = start_track t0 rgb B) /\
  dispatched r =
    match ptz_controller s with
    | Some _ => fst (steer_on (is_usb s) (dead_zone frame) B (last_request s))
    | None => []
    end /\
  last_request (widget r) =
    match ptz_controller s with
    | Some _ => snd (steer_on (is_usb s) (dead_zone frame) B (last_request s))
    | None => last_request s
    end /\
  last_box (widget r) = Some B /\
  track_started (widget r) = true.
Proof.
  intros Hon Hn Hm. cbn zeta.
  destruct (seen_frame_steers s pt fps frame name B Hon Hn Hm) as [Hd Hl].
  destruct B as [[[l u] rt] d].
  pose proof (seen_frame_setup s pt fps frame name l u rt d Hon Hn Hm) as Hs.
  cbn zeta in Hs. destruct Hs as (Hstep & Hn1 & Hbox & Htemp & Hsb).
  split; [|split; [|split; [exact Hd | split; [exact Hl|]]]]; rewrite Hstep;
    set (s1 := fst (annotated s pt frame)) in *;
    set (f1 := snd (annotated s pt frame)) in *;
    destruct (track_face_steers _ _ _ _ _ _ _ _ _ _ _ Hn1 Hsb) as ((fr & Hr) & _ & _);
    pose proof (track_face_fields s1 f1 l u rt d name Hn1) as Hf; cbn zeta in Hf;
    destruct Hf as (F1 & F2 & F3 & F4 & F5 & F6 & _);
    rewrite Hr; cbn [finish result widget].
  - eexists; reflexivity.
  - cbn. rewrite F2. unfold tracker_after. rewrite Htemp. eexists; reflexivity.
  - split; [|exact F1].
    unfold last_box in *. cbn. rewrite F3, F4, F5, F6. exact Hbox.
Qed.

(** The update never changes the tracking switch, the tracked name or the
    actuator binding. *)
Lemma draw_on_frame_controls s pt fps frame :
  let s' := widget (draw_on_frame s pt fps frame) in
  is_tracking s' = is_tracking s /\ tracked_name s' = tracked_name s /\
  ptz_controller s' = ptz_controller s /\ ptz_is_usb s' = ptz_is_usb s.
Proof.
  cbn zeta.
  pose proof (annotated_controls s pt frame) as Hc. cbn zeta in Hc.
  destruct Hc as (_ & C2 & C3 & _ & C5 & C6 & _).
  destruct (is_tracking (fst (annotated s pt frame))) eqn:Hon;
    [|rewrite draw_on_frame_idle by (left; assumption); cbn; repeat split; congruence].
  destruct (last_box (fst (annotated s pt frame))) as [[[[x y] w] h]|] eqn:Hbox;
    [|rewrite draw_on_frame_idle by (right; assumption); cbn; repeat split; congruence].
  rewrite (draw_on_frame_tracking _ _ _ _ _ _ _ _ Hon Hbox). cbn zeta.
  set (s1 := fst (annotated s pt frame)) in *.
  set (f1 := snd (annotated s pt frame)) in *.
  destruct (tracked_name s1) as [name|] eqn:Hn.
  - pose proof (track_face_fields s1 f1 x y w h name Hn) as Hf. cbn zeta in Hf.
    destruct Hf as (_ & _ & _ & _ & _ & _ & _ & F8 & F9 & F10 & F11).
    destruct (steering_box s1 f1 x y w h) as [[[bx by_] bw] bh] eqn:Hb.
    destruct (track_face_steers _ _ _ _ _ _ _ _ _ _ _ Hn Hb) as ((fr & Hr) & _ & _).
    rewrite Hr. cbn. repeat split; congruence.
  - rewrite (track_face_raises _ _ _ _ _ _ Hn). cbn. repeat split; congruence.
Qed.


Lemma classify_down_right (dz : DeadZone) (x y w h : Z) :
  h > max_y dz -> w > max_x dz -> y >= min_y dz -> x >= min_x dz ->
  Spec.classify dz x y w h = Some cmd_down_right.
Proof.
  intros Hh Hw Hy Hx. unfold Spec.classify. rewrite !Z.gtb_ltb.
  replace (w <? max_x dz) with false by (symmetry; apply Z.ltb_ge; lia).
  replace (y <? min_y dz) with false by (symmetry; apply Z.ltb_ge; lia).
  replace (x <? min_x dz) with false by (symmetry; apply Z.ltb_ge; lia).
  replace (max_y dz <? h) with true by (symmetry; apply Z.ltb_lt; lia).
  replace (max_x dz <? w) with true by (symmetry; apply Z.ltb_lt; lia).
  rewrite !andb_false_r. reflexivity.
Qed.

(** C2 (amended): with an actuator configured and a name to track, a steering
    box with [h_box > max_y] and [w_box > max_x] that does not also lie
    above [min_y] or left of [min_x] (those corners come first in the
    chain), met with a last request other than [down_right], makes
    [track_face] send [down_right], and nothing else, and record it. *)
Theorem down_right_precedence s frame x y w h name ctrl bx by_ bw bh :
  tracked_name s = Some name ->
  ptz_controller s = Some ctrl ->
  steering_box s frame x y w h = (bx, by_, bw, bh) ->
  bh > max_y (dead_zone frame) -> bw > max_x (dead_zone frame) ->
  by_ >= min_y (dead_zone frame) -> bx >= min_x (dead_zone frame) ->
  last_request s <> Some cmd_down_right ->
  dispatched (track_face s frame x y w h) = [actuate (is_usb s) cmd_down_right] /\
  last_request (widget (track_face s frame x y w h)) = Some cmd_down_right.
Proof.
  intros Hn Hc Hb Hh Hw Hy Hx Hlr.
  destruct (track_face_steers _ _ _ _ _ _ _ _ _ _ _ Hn Hb) as (_ & Hd & Hl).
  rewrite Hc in Hd, Hl.
  rewrite (steer_fresh _ _ _ _ _ _ _ _ (classify_down_right _ _ _ _ _ Hh Hw Hy Hx) Hlr)
    in Hd, Hl.
  split; assumption.
Qed.

(** C9 (the code against the claim): with tracking on, a cached box and no
    tracked name, the update raises [AttributeError] at [None.upper()]
    instead of returning the frame; it sends nothing. *)
Theorem update_raises_without_name s pt fps frame (cached : Rect) :
  is_tracking s = true ->
  tracked_name s = None ->
  last_box s = Some cached ->
  result (draw_on_frame s pt fps frame) = Raise AttributeError /\
  dispatched (draw_on_frame s pt fps frame) = [] /\
  widget (draw_on_frame s pt fps frame) = s.
Proof.
  intros Hon Hn Hbox. destruct cached as [[[x y] w] h].
  assert (Hs1 : fst (annotated s pt frame) = s).
  { unfold annotated. apply loop_no_match. rewrite Hn. intros e _. reflexivity. }
  assert (Hon1 : is_tracking (fst (annotated s pt frame)) = true)
    by (rewrite Hs1; exact Hon).
  assert (Hbox1 : last_box (fst (annotated s pt frame)) = Some (x, y, w, h))
    by (rewrite Hs1; exact Hbox).
  rewrite (draw_on_frame_tracking s pt fps frame x y w h Hon1 Hbox1).
  rewrite Hs1. cbn zeta. rewrite (track_face_raises _ _ _ _ _ _ Hn). cbn.
  repeat split.
Qed.

(** Elsewhere the update returns the frame: with a tracked name, with tracking
    off, or with no cached box after the loop. *)
Lemma update_returns s pt fps frame :
  tracked_name s <> None \/ is_tracking s = false \/
  last_box (fst (annotated s pt frame)) = None ->
  exists frame', result (draw_on_frame s pt fps frame) = Ok frame'.
Proof.
  intros Hcase.
  pose proof (annotated_controls s pt frame) as Hc. cbn zeta in Hc.
  destruct Hc as (_ & C2 & C3 & _).
  destruct (is_tracking (fst (annotated s pt frame))) eqn:Hon;
    [|rewrite draw_on_frame_idle by (left; assumption); eexists; reflexivity].
  destruct (last_box (fst (annotated s pt frame))) as [[[[x y] w] h]|] eqn:Hbox;
    [|rewrite draw_on_frame_idle by (right; assumption); eexists; reflexivity].
  rewrite (draw_on_frame_tracking _ _ _ _ _ _ _ _ Hon Hbox). cbn zeta.
  destruct (tracked_name (fst (annotated s pt frame))) as [name|] eqn:Hn.
  - destruct (steering_box (fst (annotated s pt frame)) (snd (annotated s pt frame))
                x y w h) as [[[bx by_] bw] bh] eqn:Hb.
    destruct (track_face_steers _ _ _ _ _ _ _ _ _ _ _ Hn Hb) as ((fr & Hr) & _ & _).
    rewrite Hr. eexists; reflexivity.
  - destruct Hcase as [Hname | [Hoff | Hnone]]; congruence.
Qed.

(** *** Toggling and renaming *)

Lemma quiet_when_off s pt fps frame :
  is_tracking s = false ->
  dispatched (draw_on_frame s pt fps frame) = [] /\
  last_request (widget (draw_on_frame s pt fps frame)) = last_request s.
Proof.
  intros Hoff.
  pose proof (annotated_controls s pt frame) as Hc. cbn zeta in Hc.
  destruct Hc as (_ & C2 & _ & _ & _ & _ & C7).
  rewrite draw_on_frame_idle by (left; congruence).
  cbn. split; [reflexivity | exact C7].
Qed.

Lemma quiet_when_unseeded s pt fps frame :
  last_box s = None ->
  no_match (snapshot pt) (tracked_name s) ->
  dispatched (draw_on_frame s pt fps frame) = [] /\
  last_box (widget (draw_on_frame s pt fps frame)) = None /\
  last_request (widget (draw_on_frame s pt fps frame)) = last_request s.
Proof.
  intros Hbox Hno.
  assert (Hs1 : fst (annotated s pt frame) = s)
    by (unfold annotated; apply loop_no_match; assumption).
  rewrite draw_on_frame_idle by (right; rewrite Hs1; exact Hbox).
  rewrite Hs1. cbn. repeat split. exact Hbox.
Qed.

Lemma run_frames_off frames : forall s,
  is_tracking s = false ->
  snd (run_frames s frames) = [] /\
  is_tracking (fst (run_frames s frames)) = false /\
  tracked_name (fst (run_frames s frames)) = tracked_name s /\
  last_request (fst (run_frames s frames)) = last_request s.
Proof.
  induction frames as [|[[pt fps] frame] rest IH]; intros s Hoff;
    [cbn; repeat split; assumption|].
  cbn [run_frames].
  pose proof (draw_on_frame_controls s pt fps frame) as Hc. cbn zeta in Hc.
  destruct Hc as (C1 & C2 & _).
  destruct (quiet_when_off s pt fps frame Hoff) as [Hd Hl].
  destruct (IH (widget (draw_on_frame s pt fps frame))) as (I1 & I2 & I3 & I4);
    [congruence|].
  destruct (run_frames (widget (draw_on_frame s pt fps frame)) rest) as [s' calls].
  cbn in *. subst calls. rewrite Hd. repeat split; congruence.
Qed.

Lemma run_frames_unseeded frames : forall s,
  last_box s = None ->
  unseen (tracked_name s) frames ->
  snd (run_frames s frames) = [] /\
  last_request (fst (run_frames s frames)) = last_request s.
Proof.
  induction frames as [|[[pt fps] frame] rest IH]; intros s Hbox Hun;
    [cbn; split; reflexivity|].
  cbn [run_frames].
  pose proof (draw_on_frame_controls s pt fps frame) as Hc. cbn zeta in Hc.
  destruct Hc as (_ & C2 & _).
  destruct (quiet_when_unseeded s pt fps frame Hbox) as (Hd & Hb & Hl);
    [apply (Hun (pt, fps, frame)); left; reflexivity|].
  destruct (IH (widget (draw_on_frame s pt fps frame)) Hb) as (I1 & I2);
    [rewrite C2; intros e Hin; apply Hun; right; assumption|].
  destruct (run_frames (widget (draw_on_frame s pt fps frame)) rest) as [s' calls].
  cbn in *. subst calls. rewrite Hd. split; [reflexivity | congruence].
Qed.

(** C4 (amended): [set_tracking] on a tracking widget clears the cached box
    and switches tracking off; it clears [last_request] only when an
    actuator is configured and leaves [track_started] as it was.  From
    there no frame makes an actuator call, and after tracking is switched
    on again no frame does until one shows the tracked name.
    [set_tracked_name] clears [track_started] and stores the name. *)
Theorem toggle_off_is_quiet s frames frames' s2 name :
  is_tracking s = true ->
  unseen (tracked_name s) frames' ->
  let off := widget (set_tracking s) in
  let idle := fst (run_frames off frames) in
  let on := widget (set_tracking idle) in
  (is_tracking off = false /\ last_box off = None /\
   track_started off = track_started s /\
   last_request off =
     match ptz_controller s with Some _ => None | None => last_request s end) /\
  snd (run_frames off frames) = [] /\
  (is_tracking on = true /\ snd (run_frames on frames') = []) /\
  (track_started (set_tracked_name s2 name) = false /\
   tracked_name (set_tracked_name s2 name) = name).
Proof.
  intros Hon Hun. cbn zeta.
  assert (Hoff : is_tracking (widget (set_tracking s)) = false).
  { unfold set_tracking. cbn. destruct (ptz_controller s); cbn; rewrite Hon;
      reflexivity. }
  assert (Hname : tracked_name (widget (set_tracking s)) = tracked_name s)
    by (unfold set_tracking; cbn; destruct (ptz_controller s); reflexivity).
  destruct (run_frames_off frames _ Hoff) as (R1 & R2 & R3 & R4).
  split; [|split; [exact R1|split]].
  - split; [exact Hoff|].
    unfold set_tracking. cbn. destruct (ptz_controller s); cbn; repeat split.
  - set (idle := fst (run_frames (widget (set_tracking s)) frames)) in *.
    split; [unfold set_tracking; cbn; destruct (ptz_controller idle); cbn;
            rewrite R2; reflexivity|].
    apply run_frames_unseeded.
    + unfold set_tracking. cbn. destruct (ptz_controller idle); reflexivity.
    + replace (tracked_name (widget (set_tracking idle))) with (tracked_name s);
        [exact Hun|].
      rewrite <- Hname, <- R3.
      unfold set_tracking. cbn. destruct (ptz_controller idle); reflexivity.
  - repeat split.
Qed.

(** *** What every operation preserves *)

Lemma annotated_box_all_or_none s pt frame :
  box_all_or_none s -> box_all_or_none (fst (annotated s pt frame)).
Proof.
  unfold annotated. generalize (snapshot pt) as entries. intros entries.
  revert s frame. induction entries as [|e rest IH]; intros s frame Hs; [exact Hs|].
  cbn [fold_left]. destruct (annotate (s, frame) e) as [s1 f1] eqn:E.
  apply IH.
  destruct e as [[[[[top right_] bottom] left_] name] conf]. cbn in E.
  injection E as <- _.
  destruct (Py.str_eq_opt name (tracked_name s)); [|exact Hs].
  left. cbn. discriminate.
Qed.

(** C7 (amended): the tracker instance is created by [__init__], with
    [track_started] false and no cached box, and is there in every state.
    What construction establishes and [set_ptz], [set_tracking],
    [set_tracked_name] and the per-frame update preserve is that the four box
    attributes are set together or not at all and that the per-frame name is
    clear between calls.  A per-frame update leaves [track_started] true only
    if it already was, or if it ran with tracking on and a cached box. *)
Theorem settled_is_preserved s ndi_ptz control isUSB name pt fps frame :
  settled s ->
  (settled (init ndi_ptz) /\ Spec.tracker_exists (init ndi_ptz) /\
   track_started (init ndi_ptz) = false /\ last_box (init ndi_ptz) = None) /\
  settled (widget (set_ptz s control isUSB)) /\
  settled (widget (set_tracking s)) /\
  settled (set_tracked_name s name) /\
  settled (widget (draw_on_frame s pt fps frame)) /\
  (track_started (widget (draw_on_frame s pt fps frame)) = true ->
   track_started s = true \/
   (is_tracking (widget (draw_on_frame s pt fps frame)) = true /\
    last_box (widget (draw_on_frame s pt fps frame)) <> None)).
Proof.
  intros [Hbox Htemp].
  split.
  { repeat split; try reflexivity; [right; repeat split | eexists; reflexivity]. }
  split.
  { unfold set_ptz.
    destruct control, (ptz_controller s), (ptz_is_usb s) as [[|]|];
      (split; [exact Hbox | exact Htemp]). }
  split.
  { unfold set_tracking. cbn. destruct (ptz_controller s); cbn;
      (split; [right; repeat split | exact Htemp]). }
  split; [split; [exact Hbox | exact Htemp]|].
  pose proof (annotated_controls s pt frame) as Hc. cbn zeta in Hc.
  destruct Hc as (C1 & C2 & C3 & _).
  pose proof (annotated_box_all_or_none s pt frame Hbox) as Hbox1.
  destruct (is_tracking (fst (annotated s pt frame))) eqn:Hon.
  2:{ rewrite draw_on_frame_idle by (left; assumption). cbn.
      split; [split; [exact Hbox1 | reflexivity]|]. intros Hts. left. congruence. }
  destruct (last_box (fst (annotated s pt frame))) as [[[[x y] w] h]|] eqn:Hlb.
  2:{ rewrite draw_on_frame_idle by (right; assumption). cbn.
      split; [split; [exact Hbox1 | reflexivity]|]. intros Hts. left. congruence. }
  rewrite (draw_on_frame_tracking _ _ _ _ _ _ _ _ Hon Hlb). cbn zeta.
  destruct (tracked_name (fst (annotated s pt frame))) as [nm|] eqn:Hn.
  - pose proof (track_face_fields _ (snd (annotated s pt frame)) x y w h nm Hn) as Hf.
    cbn zeta in Hf. destruct Hf as (F1 & _ & F3 & F4 & F5 & F6 & _ & _ & F9 & _).
    destruct (steering_box (fst (annotated s pt frame)) (snd (annotated s pt frame))
                x y w h) as [[[bx by_] bw] bh] eqn:Hb.
    destruct (track_face_steers _ _ _ _ _ _ _ _ _ _ _ Hn Hb) as ((fr & Hr) & _ & _).
    rewrite Hr. cbn [finish widget].
    assert (Hlb' : last_box (with_temp_tracked_name
                     (widget (track_face (fst (annotated s pt frame))
                                (snd (annotated s pt frame)) x y w h)) None)
                   = Some (x, y, w, h))
      by (unfold last_box in *; cbn; rewrite F3, F4, F5, F6; exact Hlb).
    split; [split; [left; rewrite Hlb'; discriminate | reflexivity]|].
    intros _. right. split; [cbn; congruence | rewrite Hlb'; discriminate].
  - rewrite (track_face_raises _ _ _ _ _ _ Hn). cbn [result widget].
    assert (Hs1 : fst (annotated s pt frame) = s).
    { unfold annotated. apply loop_no_match. rewrite <- C3.
      intros e _. reflexivity. }
    rewrite Hs1. split; [split; [exact Hbox | exact Htemp]|]. intros Hts. left. exact Hts.
Qed.

(** *** The debounce on a corner *)

(** C1 (the code against the claim): two successive updates see the tracked
    name at one and the same box beyond the top and the left of the dead
    zone, so both classify as [up_left].  The first sends [up_left]; the
    second, finding [up_left] as the last request, falls through the chain
    and sends [up]: two actuator calls, not one. *)
Theorem corner_command_not_debounced s pt fps frame name ctrl l u r d :
  is_tracking s = true ->
  tracked_name s = Some name ->
  ptz_controller s = Some ctrl ->
  last_match (snapshot pt) name = Some (l, u, r, d) ->
  u < min_y (dead_zone frame) -> l < min_x (dead_zone frame) ->
  r <= max_x (dead_zone frame) -> d <= max_y (dead_zone frame) ->
  last_request s <> Some cmd_up_left ->
  Spec.classify (dead_zone frame) l u r d = Some cmd_up_left /\
  snd (run_frames s [(pt, fps, frame); (pt, fps, frame)]) =
    [actuate (is_usb s) cmd_up_left; actuate (is_usb s) cmd_up] /\
  last_request (fst (run_frames s [(pt, fps, frame); (pt, fps, frame)])) = Some cmd_up.
Proof.
  intros Hon Hn Hc Hm Hu Hl Hr Hd Hlr.
  destruct (steer_up_left_falls_through (is_usb s) (dead_zone frame) l u r d Hu Hl Hr Hd)
    as [Hcl Hfall].
  split; [exact Hcl|].
  destruct (seen_frame_steers s pt fps frame name (l, u, r, d) Hon Hn Hm) as [D1 L1].
  rewrite Hc in D1, L1. cbn [steer_on] in D1, L1.
  rewrite (steer_fresh _ _ _ _ _ _ _ _ Hcl Hlr) in D1, L1. cbn [fst snd] in D1, L1.
  pose proof (draw_on_frame_controls s pt fps frame) as Hk. cbn zeta in Hk.
  destruct Hk as (K1 & K2 & K3 & K4).
  set (s1 := widget (draw_on_frame s pt fps frame)) in *.
  assert (Hon1 : is_tracking s1 = true) by congruence.
  assert (Hn1 : tracked_name s1 = Some name) by congruence.
  assert (Husb : is_usb s1 = is_usb s) by (unfold is_usb; rewrite K4; reflexivity).
  destruct (seen_frame_steers s1 pt fps frame name (l, u, r, d) Hon1 Hn1 Hm) as [D2 L2].
  rewrite K3, Hc, L1, Husb in D2, L2. cbn [steer_on] in D2, L2.
  rewrite Hfall in D2, L2. cbn [fst snd] in D2, L2.
  cbn [run_frames]. fold s1. cbn [fst snd].
  rewrite D1, D2, L2. split; reflexivity.
Qed.

End Update.

(* ------------------------------------------------------------------ *)
(** ** Concrete runs *)

Ltac by_computation :=
  vm_compute; first [reflexivity | discriminate | intro; discriminate].

(** C5 at work: Alice is seen in the corner while the tracker sits elsewhere;
    the update restarts the tracker on her box and steers on it. *)
Lemma reseed_priority_demo :
  let r := draw_on_frame Demo.following (Demo.seen "Alice" Demo.corner_box)
             "FPS: 0" Demo.frame_800x600 in
  tracker (widget r) = Demo.corner_box /\
  dispatched r = [actuate false cmd_up_left] /\
  last_box (widget r) = Some Demo.corner_box.
Proof.
  destruct (reseed_priority Demo.following (Demo.seen "Alice" Demo.corner_box)
              "FPS: 0" Demo.frame_800x600 "Alice" Demo.corner_box)
    as (_ & _ & Hd & _ & Hb & _); [by_computation ..|].
  cbn zeta. split; [by_computation|]. split; [|exact Hb].
  rewrite Hd. by_computation.
Defined.



(** C2 at work, on the box of the specification's scenario. *)
Lemma down_right_precedence_demo :
  dispatched (track_face (Demo.seeing Demo.low_right_box) Demo.frame_800x600
                700 50 750 400) = [actuate false cmd_down_right] /\
  last_request (widget (track_face (Demo.seeing Demo.low_right_box)
                          Demo.frame_800x600 700 50 750 400)) = Some cmd_down_right.
Proof.
  apply (down_right_precedence (Demo.seeing Demo.low_right_box) Demo.frame_800x600
           700 50 750 400 "Alice" 1%nat 700 50 750 400); by_computation.
Defined.

(** C2, as stated, fails on a face that fills the frame: it lies beyond
    [max_y] and [max_x], and the update sends and records [up_left]. *)
Lemma full_frame_box_is_up_left :
  ~ Spec.diagonal_precedence (Demo.seeing Demo.full_box) Demo.frame_800x600
      0 0 800 600.
Proof.
  unfold Spec.diagonal_precedence.
  replace (steering_box (Demo.seeing Demo.full_box) Demo.frame_800x600 0 0 800 600)
    with (0, 0, 800, 600) by by_computation.
  intros Hc.
  assert (E : last_request (widget (track_face (Demo.seeing Demo.full_box)
                                      Demo.frame_800x600 0 0 800 600))
              = Some cmd_down_right)
    by (apply Hc; by_computation).
  vm_compute in E. discriminate E.
Qed.

(** C9 at work: Alice was being followed, the name is cleared, and the next
    frame raises. *)
Lemma update_raises_without_name_demo :
  result (draw_on_frame Demo.unnamed Demo.nobody "FPS: 0" Demo.frame_800x600)
    = Raise AttributeError /\
  dispatched (draw_on_frame Demo.unnamed Demo.nobody "FPS: 0" Demo.frame_800x600) = [] /\
  widget (draw_on_frame Demo.unnamed Demo.nobody "FPS: 0" Demo.frame_800x600)
    = Demo.unnamed.
Proof.
  apply (update_raises_without_name Demo.unnamed Demo.nobody "FPS: 0"
           Demo.frame_800x600 Demo.centre_box); by_computation.
Defined.

(** C1 at work: Alice stays in the upper-left corner for two frames; the
    actuator is told [up_left], then [up]. *)
Lemma corner_command_not_debounced_demo :
  Spec.classify (dead_zone Demo.frame_800x600) 10 10 60 20 = Some cmd_up_left /\
  snd (run_frames Demo.armed Demo.frames_with_alice) =
    [NdiPanTiltSpeed (1 # 10) (1 # 10); NdiPanTiltSpeed 0 (1 # 10)] /\
  last_request (fst (run_frames Demo.armed Demo.frames_with_alice)) = Some cmd_up.
Proof.
  apply (corner_command_not_debounced Demo.armed (Demo.seen "Alice" Demo.corner_box)
           "FPS: 0" Demo.frame_800x600 "Alice" 1%nat 10 10 60 20); by_computation.
Defined.

(** C4 at work: tracking is switched off while Alice is followed; two frames
    pass, tracking is switched on again, and two frames without her pass: the
    frames make no actuator call. *)
Lemma toggle_off_is_quiet_demo :
  let off := widget (set_tracking Demo.following) in
  let on := widget (set_tracking (fst (run_frames off Demo.frames_with_alice))) in
  last_box off = None /\ last_request off = None /\ track_started off = true /\
  snd (run_frames off Demo.frames_with_alice) = [] /\
  snd (run_frames on Demo.frames_without_alice) = [] /\
  track_started Demo.renamed = false /\
  tracked_name Demo.renamed = Some "Bob"%string.
Proof.
  destruct (toggle_off_is_quiet Demo.following Demo.frames_with_alice
              Demo.frames_without_alice Demo.following (Some "Bob"%string))
    as ((_ & Hb & Hts & Hlr) & Hq & (_ & Hq') & (Hrs & Hrn)).
  - by_computation.
  - intros e [<- | [<- | []]] e' Hin.
    + destruct Hin.
    + destruct Hin as [<- | []]. by_computation.
  - cbn zeta. split; [exact Hb|]. split; [rewrite Hlr; by_computation|].
    split; [rewrite Hts; by_computation|]. split; [exact Hq|]. split; [exact Hq'|].
    split; [exact Hrs | exact Hrn].
Defined.

(** C4, as stated, fails on the widget that follows Alice: after
    [set_tracking] switches tracking off the tracker still counts as
    started. *)
Lemma toggle_keeps_track_started :
  is_tracking Demo.following = true /\
  ~ Spec.reset (widget (set_tracking Demo.following)).
Proof.
  split; [by_computation|].
  intros (Hts & _). vm_compute in Hts. discriminate Hts.
Qed.

(** The defect behind the other half of C4: Alice is followed in the corner,
    the name is changed to Bob, and a frame that shows nobody still moves the
    camera, from the box cached for Alice. *)
Lemma rename_fires_without_reseed :
  last_match (snapshot Demo.nobody) "Bob" = None /\
  last_box (set_tracked_name Demo.cornered (Some "Bob"%string)) = Some Demo.corner_box /\
  dispatched (draw_on_frame (set_tracked_name Demo.cornered (Some "Bob"%string))
                Demo.nobody "FPS: 0" Demo.frame_800x600)
    = [NdiPanTiltSpeed 0 (1 # 10)].
Proof. repeat split; by_computation. Qed.

(** C10 at work: the NDI widget that follows Alice is toggled off and on
    again, a USB widget and a widget without controller are toggled. *)
Lemma set_tracking_stops_demo :
  (dispatched (set_tracking Demo.following) = [NdiPanTiltSpeed 0 0] /\
   last_request (widget (set_tracking Demo.following)) = None) /\
  (dispatched (set_tracking (widget (set_tracking Demo.following)))
     = [NdiPanTiltSpeed 0 0] /\
   last_request (widget (set_tracking (widget (set_tracking Demo.following)))) = None) /\
  (dispatched (set_tracking Demo.usb_widget) = [UsbCall move_stop] /\
   last_request (widget (set_tracking Demo.usb_widget)) = None) /\
  (dispatched (set_tracking Demo.armed_without_ptz) = [] /\
   last_request (widget (set_tracking Demo.armed_without_ptz)) =
     last_request Demo.armed_without_ptz).
Proof.
  split; [exact (proj2 (set_tracking_stops Demo.following))|].
  split; [exact (proj2 (set_tracking_stops (widget (set_tracking Demo.following))))|].
  split; [exact (proj2 (set_tracking_stops Demo.usb_widget))|].
  exact (proj2 (set_tracking_stops Demo.armed_without_ptz)).
Defined.

(** C7 at work, from the widget that follows Alice. *)
Lemma settled_is_preserved_demo :
  settled (init (T := Demo.DriftTracker) None) /\
  settled (widget (set_tracking Demo.following)) /\
  settled Demo.renamed /\
  settled (widget (draw_on_frame Demo.following Demo.nobody "FPS: 0"
                     Demo.frame_800x600)).
Proof.
  assert (Hs : settled Demo.following)
    by (split; [left; vm_compute; discriminate | by_computation]).
  destruct (settled_is_preserved Demo.following None None false (Some "Bob"%string)
              Demo.nobody "FPS: 0"%string Demo.frame_800x600 Hs)
    as ((Hi & _) & _ & Ht & Hn & Hd & _).
  split; [exact Hi|]. split; [exact Ht|]. split; [exact Hn | exact Hd].
Defined.

(** C7, as stated, fails: the widget that follows Alice satisfies the
    specification's invariant, and [set_tracked_name] breaks it, leaving a
    cached box with [track_started] false. *)
Lemma rename_breaks_invariant :
  Spec.invariant Demo.following /\ ~ Spec.invariant Demo.renamed.
Proof.
  split.
  - split; split; intros _; try by_computation.
    eexists; reflexivity.
  - intros [_ [Hd _]].
    assert (E : track_started Demo.renamed = true) by (apply Hd; by_computation).
    vm_compute in E. discriminate E.
Qed.

(** Construction itself does not meet it either: the tracker is there while
    [track_started] is false. *)
Lemma init_breaks_invariant :
  ~ Spec.invariant (init (T := Demo.DriftTracker) None).
Proof.
  intros [[He _] _].
  assert (E : track_started (init (T := Demo.DriftTracker) None) = true)
    by (apply He; eexists; reflexivity).
  discriminate E.
Qed.

(* ------------------------------------------------------------------ *)
(** ** Runs of frames: what the actuator sees *)

(** The calls of a run, each different from the one before it; [prev] is the
    call that precedes the run, if any. *)
Fixpoint no_repeat (prev : option ActuatorCall) (calls : list ActuatorCall) : Prop :=
  match calls with
  | [] => True
  | c :: rest => prev <> Some c /\ no_repeat (Some c) rest
  end.

(** How many of the four sides of the dead zone a box lies beyond. *)
Definition sides_crossed (dz : DeadZone) (box : Rect) : nat :=
  let '(x, y, w, h) := box in
  let above := Nat.b2n (y <? min_y dz) in
  let below := Nat.b2n (h >? max_y dz) in
  let leftward := Nat.b2n (x <? min_x dz) in
  let rightward := Nat.b2n (w >? max_x dz) in
  (above + below + leftward + rightward)%nat.

(** The specification's order, on a box. *)
Definition classify_box (dz : DeadZone) (box : Rect) : option PTZCommand :=
  let '(x, y, w, h) := box in Spec.classify dz x y w h.

Lemma actuate_injective (usb : bool) (c c' : PTZCommand) :
  actuate usb c = actuate usb c' -> c = c'.
Proof.
  destruct usb, c, c'; cbn; intros E; try reflexivity; discriminate E.
Qed.

Section Runs.

Context {T : Type} `{CorrelationTracker T}.

Implicit Types (s : CameraWidget T) (frame : Frame) (pt : option ProcessorThread).

(** The outcomes of the frames of a run, in order. *)
Fixpoint frame_results s (frames : list (option ProcessorThread * string * Frame))
  : list (Result Frame) :=
  match frames with
  | [] => []
  | (pt, fps, frame) :: rest =>
      let r := draw_on_frame s pt fps frame in
      result r :: frame_results (widget r) rest
  end.

(** The three ways one update can go. *)
Lemma draw_on_frame_cases s pt fps frame :
  let s1 := fst (annotated s pt frame) in
  let f1 := snd (annotated s pt frame) in
  ((is_tracking s = false \/ last_box s1 = None) /\
   draw_on_frame s pt fps frame = finish s1 f1 fps [])
  \/
  (is_tracking s = true /\ tracked_name s = None /\ last_box s <> None /\
   draw_on_frame s pt fps frame = mkStep (Raise AttributeError) s [])
  \/
  (exists name x y w h bx by_ bw bh frame',
      is_tracking s = true /\ tracked_name s = Some name /\
      last_box s1 = Some (x, y, w, h) /\
      steering_box s1 f1 x y w h = (bx, by_, bw, bh) /\
      draw_on_frame s pt fps frame =
        finish (widget (track_face s1 f1 x y w h)) frame' fps
          (match ptz_controller s with
           | Some _ => fst (steer (is_usb s) (dead_zone frame) bx by_ bw bh
                              (last_request s))
           | None => []
           end) /\
      last_request (widget (track_face s1 f1 x y w h)) =
        match ptz_controller s with
        | Some _ => snd (steer (is_usb s) (dead_zone frame) bx by_ bw bh
                           (last_request s))
        | None => last_request s
        end).
Proof.
  cbn zeta.
  pose proof (annotated_controls s pt frame) as Hc. cbn zeta in Hc.
  destruct Hc as (_ & C2 & C3 & _ & C5 & C6 & C7).
  destruct (is_tracking (fst (annotated s pt frame))) eqn:Hon.
  2:{ left. split; [left; congruence|].
      apply draw_on_frame_idle. left. exact Hon. }
  destruct (last_box (fst (annotated s pt frame))) as [[[[x y] w] h]|] eqn:Hbox.
  2:{ left. split; [right; reflexivity|].
      apply draw_on_frame_idle. right. exact Hbox. }
  right.
  pose proof (draw_on_frame_tracking s pt fps frame x y w h Hon Hbox) as Hstep.
  cbn zeta in Hstep.
  destruct (tracked_name s) as [name|] eqn:Hn.
  - right.
    destruct (steering_box (fst (annotated s pt frame)) (snd (annotated s pt frame))
                x y w h) as [[[bx by_] bw] bh] eqn:Hb.
    destruct (track_face_steers _ _ _ _ _ _ _ _ _ _ _ C3 Hb) as ((fr & Hr) & Hd & Hl).
    rewrite Hr, Hd in Hstep. unfold is_usb in *.
    rewrite C5, C6, C7, annotated_dead_zone in Hstep, Hl.
    exists name, x, y, w, h, bx, by_, bw, bh, fr.
    split; [congruence|]. split; [reflexivity|]. split; [reflexivity|].
    split; [exact Hb|]. split; [exact Hstep | exact Hl].
  - left.
    assert (Hs1 : fst (annotated s pt frame) = s).
    { unfold annotated. apply loop_no_match. rewrite Hn. intros e _. reflexivity. }
    rewrite Hs1 in Hstep, Hbox.
    rewrite (track_face_raises _ _ _ _ _ _ Hn) in Hstep. cbn in Hstep.
    split; [congruence|]. split; [reflexivity|]. split; [congruence | exact Hstep].
Qed.

(** One update sends nothing and keeps [last_request], or sends one command
    that differs from [last_request] and records it. *)
Lemma draw_on_frame_guarded s pt fps frame :
  let r := draw_on_frame s pt fps frame in
  (dispatched r = [] /\ last_request (widget r) = last_request s) \/
  (exists c, dispatched r = [actuate (is_usb s) c] /\
             last_request (widget r) = Some c /\ last_request s <> Some c /\
             ptz_controller s <> None).
Proof.
  cbn zeta.
  pose proof (annotated_controls s pt frame) as Hc. cbn zeta in Hc.
  destruct Hc as (_ & _ & _ & _ & _ & _ & C7).
  destruct (draw_on_frame_cases s pt fps frame)
    as [[_ E] | [(_ & _ & _ & E) |
        (name & x & y & w & h & bx & by_ & bw & bh & fr & _ & _ & _ & _ & E & Hl)]];
    rewrite E; cbn [finish widget dispatched with_temp_tracked_name last_request].
  - left. split; [reflexivity | exact C7].
  - left. split; reflexivity.
  - rewrite Hl. destruct (ptz_controller s) as [c|]; [|left; split; reflexivity].
    destruct (steer_guarded (is_usb s) (dead_zone frame) bx by_ bw bh (last_request s))
      as [E' | (c' & E' & Hne)]; rewrite E'; cbn [fst snd].
    + left. split; reflexivity.
    + right. exists c'. repeat split; try assumption. discriminate.
Qed.

End Runs.

Section RunProperties.

Context {T : Type} `{CorrelationTracker T}.

Implicit Types (s : CameraWidget T) (frame : Frame) (pt : option ProcessorThread).

(** X1: a widget with no PTZ controller never calls the actuator, over any
    run of frames, and its [last_request] stays what it was. *)
Theorem no_controller_no_dispatch s frames :
  ptz_controller s = None ->
  snd (run_frames s frames) = [] /\
  last_request (fst (run_frames s frames)) = last_request s /\
  ptz_controller (fst (run_frames s frames)) = None.
Proof.
  revert s. induction frames as [|[[pt fps] frame] rest IH]; intros s Hnone.
  - cbn. repeat split. exact Hnone.
  - cbn [run_frames].
    pose proof (draw_on_frame_controls s pt fps frame) as Hc. cbn zeta in Hc.
    destruct Hc as (_ & _ & C3 & _).
    pose proof (draw_on_frame_guarded s pt fps frame) as Hg. cbn zeta in Hg.
    destruct Hg as [[Hd Hl] | (c & _ & _ & _ & Hsome)]; [|contradiction].
    destruct (IH (widget (draw_on_frame s pt fps frame))) as (I1 & I2 & I3);
      [congruence|].
    destruct (run_frames (widget (draw_on_frame s pt fps frame)) rest) as [s' calls].
    cbn [fst snd] in *. rewrite Hd, I1. repeat split; congruence.
Qed.

(** X2: over any run of frames no actuator call is the same as the one
    before it, and the first differs from the call of the last request the
    run starts with. *)
Theorem never_repeats_a_command s frames :
  no_repeat (option_map (actuate (is_usb s)) (last_request s))
    (snd (run_frames s frames)).
Proof.
  revert s. induction frames as [|[[pt fps] frame] rest IH]; intros s; [exact I|].
  cbn [run_frames].
  pose proof (draw_on_frame_controls s pt fps frame) as Hc. cbn zeta in Hc.
  destruct Hc as (_ & _ & _ & C4).
  pose proof (draw_on_frame_guarded s pt fps frame) as Hg. cbn zeta in Hg.
  specialize (IH (widget (draw_on_frame s pt fps frame))).
  assert (Husb : is_usb (widget (draw_on_frame s pt fps frame)) = is_usb s)
    by (unfold is_usb; rewrite C4; reflexivity).
  rewrite Husb in IH.
  destruct (run_frames (widget (draw_on_frame s pt fps frame)) rest) as [s' calls].
  cbn [fst snd] in *.
  destruct Hg as [[Hd Hl] | (c & Hd & Hl & Hne & _)]; rewrite Hd, Hl in *.
  - exact IH.
  - cbn [app no_repeat option_map] in *. split; [|exact IH].
    destruct (last_request s) as [c'|]; cbn; [|discriminate].
    intros E. injection E as E. apply actuate_injective in E. congruence.
Qed.

(** X9: once in that state the widget stays in it: every frame of a run
    raises, nothing is sent and the widget does not change.  Setting a name
    or toggling the tracking switch makes the next update return again. *)
Theorem raising_persists s frames name pt fps frame :
  is_tracking s = true -> tracked_name s = None -> last_box s <> None ->
  Forall (fun r => r = Raise AttributeError) (frame_results s frames) /\
  run_frames s frames = (s, []) /\
  (exists frame', result (draw_on_frame (set_tracked_name s (Some name)) pt fps frame)
                  = Ok frame') /\
  (exists frame', result (draw_on_frame (widget (set_tracking s)) pt fps frame)
                  = Ok frame').
Proof.
  intros Hon Hn Hb.
  assert (Hstep : forall pt fps frame,
             draw_on_frame s pt fps frame = mkStep (Raise AttributeError) s []).
  { intros pt' fps' frame'.
    destruct (draw_on_frame_cases s pt' fps' frame')
      as [[Hidle E] | [(_ & _ & _ & E) |
          (nm & x & y & w & h & bx & by_ & bw & bh & fr & _ & Hn' & _)]];
      [|exact E|congruence].
    exfalso. destruct Hidle as [Hoff | Hnone]; [congruence|].
    apply Hb. rewrite <- Hnone. f_equal. symmetry.
    unfold annotated. apply loop_no_match. rewrite Hn. intros e _. reflexivity. }
  split; [|split; [|split]].
  - induction frames as [|[[pt' fps'] frame'] rest IH]; [constructor|].
    cbn [frame_results]. rewrite Hstep. cbn [result widget].
    constructor; [reflexivity | exact IH].
  - induction frames as [|[[pt' fps'] frame'] rest IH]; [reflexivity|].
    cbn [run_frames]. rewrite Hstep. cbn [widget dispatched]. rewrite IH. reflexivity.
  - apply update_returns. left. cbn. discriminate.
  - apply update_returns. right. left.
    unfold set_tracking. cbn. destruct (ptz_controller s); cbn; rewrite Hon; reflexivity.
Qed.

End RunProperties.

Lemma no_controller_no_dispatch_demo :
  snd (run_frames Demo.armed_without_ptz Demo.frames_with_alice) = [] /\
  last_request (fst (run_frames Demo.armed_without_ptz Demo.frames_with_alice)) = None /\
  ptz_controller (fst (run_frames Demo.armed_without_ptz Demo.frames_with_alice)) = None.
Proof.
  apply (no_controller_no_dispatch Demo.armed_without_ptz Demo.frames_with_alice).
  reflexivity.
Defined.

Lemma raising_persists_demo :
  Forall (fun r => r = Raise AttributeError)
    (frame_results Demo.unnamed Demo.frames_with_alice) /\
  run_frames Demo.unnamed Demo.frames_with_alice = (Demo.unnamed, []) /\
  (exists frame', result (draw_on_frame (set_tracked_name Demo.unnamed (Some "Bob"%string))
                            Demo.nobody "FPS: 0" Demo.frame_800x600) = Ok frame') /\
  (exists frame', result (draw_on_frame (widget (set_tracking Demo.unnamed))
                            Demo.nobody "FPS: 0" Demo.frame_800x600) = Ok frame').
Proof.
  apply (raising_persists Demo.unnamed Demo.frames_with_alice "Bob" Demo.nobody
           "FPS: 0" Demo.frame_800x600); by_computation.
Defined.

(* ------------------------------------------------------------------ *)
(** ** Where the chain follows the priority order, and where it is steady *)

Section SteadyBoxes.

Variables (usb : bool) (dz : DeadZone).

(** A box that the priority order leaves unclassified makes no call. *)
Lemma steer_unclassified (box : Rect) (lr : option PTZCommand) :
  classify_box dz box = None -> steer_on usb dz box lr = ([], lr).
Proof.
  destruct box as [[[x y] w] h].
  unfold classify_box, Spec.classify, steer_on, steer, stop_block, direction_chain.
  intros Hc.
  repeat match type of Hc with
         | (if ?b then _ else _) = _ => destruct b eqn:?
         end; try discriminate Hc;
    repeat match goal with
           | E : ?b = _ |- context [?b] => rewrite E; cbn [andb]
           end; reflexivity.
Qed.

(** A box beyond at most one side of the dead zone, met with its own
    classification as the last request, makes no call. *)
Lemma steer_steady (box : Rect) :
  (sides_crossed dz box <= 1)%nat ->
  steer_on usb dz box (classify_box dz box) = ([], classify_box dz box).
Proof.
  destruct box as [[[x y] w] h].
  unfold sides_crossed, classify_box, Spec.classify, steer_on, steer, stop_block,
    direction_chain.
  rewrite !Z.gtb_ltb.
  destruct (y <? min_y dz) eqn:Ey, (max_y dz <? h) eqn:Eh,
           (x <? min_x dz) eqn:Ex, (max_x dz <? w) eqn:Ew;
    cbn [Nat.b2n Nat.add]; intros Hs; try lia;
    repeat match goal with
           | E : (_ <? _) = true |- _ => apply Z.ltb_lt in E
           | E : (_ <? _) = false |- _ => apply Z.ltb_ge in E
           end;
    repeat match goal with
           | |- context [?a <? ?b] => destruct (Z.ltb_spec a b)
           end; cbn; first [reflexivity | lia].
Qed.

End SteadyBoxes.

Lemma request_differs_false (lr : option PTZCommand) (c : PTZCommand) :
  request_differs lr c = false -> lr = Some c.
Proof.
  destruct lr as [c'|]; [|discriminate].
  destruct c', c; cbn; intros E; try reflexivity; discriminate E.
Qed.

Section FurtherUpdates.

Context {T : Type} `{CorrelationTracker T}.

Implicit Types (s : CameraWidget T) (frame : Frame) (pt : option ProcessorThread).

(** X3: when the tracked name is seen at a box whose command in the priority
    order (stop, the four corners, then up, down, left, right) is [c], and
    [c] is not the last request, the update sends [c], and only [c], and
    records it. *)
Theorem fresh_command_follows_priority s pt fps frame name ctrl (B : Rect) c :
  is_tracking s = true ->
  tracked_name s = Some name ->
  ptz_controller s = Some ctrl ->
  last_match (snapshot pt) name = Some B ->
  classify_box (dead_zone frame) B = Some c ->
  last_request s <> Some c ->
  dispatched (draw_on_frame s pt fps frame) = [actuate (is_usb s) c] /\
  last_request (widget (draw_on_frame s pt fps frame)) = Some c.
Proof.
  intros Hon Hn Hc Hm Hcl Hne.
  destruct (seen_frame_steers s pt fps frame name B Hon Hn Hm) as [Hd Hl].
  rewrite Hc in Hd, Hl. destruct B as [[[x y] w] h]. cbn [steer_on classify_box] in *.
  rewrite (steer_fresh _ _ _ _ _ _ _ _ Hcl Hne) in Hd, Hl.
  split; assumption.
Qed.

Lemma steady_run pt fps frame name (B : Rect) : forall n s,
  is_tracking s = true ->
  tracked_name s = Some name ->
  last_match (snapshot pt) name = Some B ->
  steer_on (is_usb s) (dead_zone frame) B (last_request s) = ([], last_request s) ->
  snd (run_frames s (repeat (pt, fps, frame) n)) = [].
Proof.
  induction n as [|n IH]; intros s' Hon Hn Hm Hq; [reflexivity|].
  cbn [repeat run_frames].
  destruct (seen_frame_steers s' pt fps frame name B Hon Hn Hm) as [Hd Hl].
  pose proof (draw_on_frame_controls s' pt fps frame) as Hc. cbn zeta in Hc.
  destruct Hc as (C1 & C2 & C3 & C4).
  assert (Hd' : dispatched (draw_on_frame s' pt fps frame) = [])
    by (rewrite Hd; destruct (ptz_controller s'); [rewrite Hq|]; reflexivity).
  assert (Hl' : last_request (widget (draw_on_frame s' pt fps frame)) = last_request s')
    by (rewrite Hl; destruct (ptz_controller s'); [rewrite Hq|]; reflexivity).
  specialize (IH (widget (draw_on_frame s' pt fps frame))).
  destruct (run_frames (widget (draw_on_frame s' pt fps frame))
              (repeat (pt, fps, frame) n)) as [s2 calls].
  cbn [fst snd] in *. rewrite Hd'. cbn [app].
  apply IH; try congruence.
  unfold is_usb. rewrite C4, Hl'. exact Hq.
Qed.

(** X4: where the debounce holds.  While the tracked name is seen at one box
    that lies beyond at most one side of the dead zone, a run of frames makes
    one call, for the command of that box, on its first frame if that command
    is not already the last request, and no call after it; a box no test
    matches makes no call at all. *)
Theorem steady_box_one_command s pt fps frame name ctrl (B : Rect) n :
  is_tracking s = true ->
  tracked_name s = Some name ->
  ptz_controller s = Some ctrl ->
  last_match (snapshot pt) name = Some B ->
  (sides_crossed (dead_zone frame) B <= 1)%nat ->
  snd (run_frames s (repeat (pt, fps, frame) (S n))) =
    match classify_box (dead_zone frame) B with
    | Some c => if request_differs (last_request s) c
                then [actuate (is_usb s) c] else []
    | None => []
    end.
Proof.
  intros Hon Hn Hc Hm Hs.
  cbn [repeat run_frames].
  destruct (seen_frame_steers s pt fps frame name B Hon Hn Hm) as [Hd Hl].
  rewrite Hc in Hd, Hl.
  pose proof (draw_on_frame_controls s pt fps frame) as Hk. cbn zeta in Hk.
  destruct Hk as (K1 & K2 & K3 & K4).
  assert (Husb : is_usb (widget (draw_on_frame s pt fps frame)) = is_usb s)
    by (unfold is_usb; rewrite K4; reflexivity).
  pose proof (steady_run pt fps frame name B n (widget (draw_on_frame s pt fps frame)))
    as Hrest.
  rewrite Husb, K1, K2 in Hrest. specialize (Hrest Hon Hn Hm).
  destruct (run_frames (widget (draw_on_frame s pt fps frame))
              (repeat (pt, fps, frame) n)) as [s2 calls].
  cbn [fst snd] in *.
  pose proof (steer_steady (is_usb s) (dead_zone frame) B Hs) as Hst.
  destruct (classify_box (dead_zone frame) B) as [c|] eqn:Hcl.
  - destruct (request_differs (last_request s) c) eqn:Hdiff.
    + apply request_differs_neq in Hdiff.
      assert (Hf : steer_on (is_usb s) (dead_zone frame) B (last_request s) =
                   ([actuate (is_usb s) c], Some c)).
      { destruct B as [[[x y] w] h]. cbn [steer_on classify_box] in *.
        apply steer_fresh; assumption. }
      rewrite Hf in Hd, Hl. cbn [fst snd] in Hd, Hl.
      rewrite Hd, Hrest; [reflexivity|]. rewrite Hl. exact Hst.
    + apply request_differs_false in Hdiff. rewrite Hdiff, Hst in Hd, Hl.
      cbn [fst snd] in Hd, Hl. rewrite Hd, Hrest; [reflexivity|].
      rewrite Hl. exact Hst.
  - rewrite (steer_unclassified _ _ _ _ Hcl) in Hd, Hl. cbn [fst snd] in Hd, Hl.
    rewrite Hd, Hrest; [reflexivity|]. rewrite Hl.
    apply steer_unclassified. exact Hcl.
Qed.

(** X6: the cached box is written by the snapshot loop only.  After any
    update, returned or raised, with tracking on or off, it is the box of
    the last snapshot entry labelled with the tracked name when there is
    one, and what it was before otherwise. *)
Theorem cached_box_follows_snapshot s pt fps frame :
  last_box (widget (draw_on_frame s pt fps frame)) =
    match tracked_name s with
    | Some name =>
        match last_match (snapshot pt) name with
        | Some B => Some B
        | None => last_box s
        end
    | None => last_box s
    end.
Proof.
  assert (Hloop : last_box (fst (annotated s pt frame)) =
                  match tracked_name s with
                  | Some name =>
                      match last_match (snapshot pt) name with
                      | Some B => Some B
                      | None => last_box s
                      end
                  | None => last_box s
                  end).
  { unfold annotated. destruct (tracked_name s) as [name|] eqn:Hn.
    - destruct (last_match (snapshot pt) name) as [[[[l u] r] d]|] eqn:Hm.
      + rewrite (loop_match _ _ _ _ _ _ _ _ Hn Hm). reflexivity.
      + rewrite loop_no_match; [reflexivity|].
        rewrite Hn. apply last_match_none. exact Hm.
    - rewrite loop_no_match; [reflexivity|].
      rewrite Hn. intros e _. reflexivity. }
  rewrite <- Hloop.
  destruct (draw_on_frame_cases s pt fps frame)
    as [[_ E] | [(_ & Hn & _ & E) |
        (name & x & y & w & h & bx & by_ & bw & bh & fr & _ & Hn & Hb & _ & E & _)]];
    rewrite E; cbn [finish widget].
  - reflexivity.
  - rewrite Hloop, Hn. reflexivity.
  - pose proof (annotated_controls s pt frame) as Hc. cbn zeta in Hc.
    destruct Hc as (_ & _ & C3 & _).
    pose proof (track_face_fields (fst (annotated s pt frame)) (snd (annotated s pt frame))
                  x y w h name (eq_trans C3 Hn)) as Hf.
    cbn zeta in Hf. destruct Hf as (_ & _ & F3 & F4 & F5 & F6 & _).
    unfold last_box. cbn. rewrite F3, F4, F5, F6. reflexivity.
Qed.

End FurtherUpdates.

Section ControllerAndName.

Context {T : Type} `{CorrelationTracker T}.

Implicit Types (s : CameraWidget T) (frame : Frame) (pt : option ProcessorThread).

(** X10: [set_ptz] keeps [last_request].  When a new controller is attached
    and the next frame shows the tracked name at a steady box whose command
    is the last request made of the old controller, the new controller is
    sent nothing. *)
Theorem new_controller_inherits_last_request s control isUSB pt fps frame name (B : Rect) :
  is_tracking s = true ->
  tracked_name s = Some name ->
  last_match (snapshot pt) name = Some B ->
  (sides_crossed (dead_zone frame) B <= 1)%nat ->
  last_request s = classify_box (dead_zone frame) B ->
  let s' := widget (set_ptz s (Some control) isUSB) in
  ptz_controller s' = Some control /\
  last_request s' = last_request s /\
  dispatched (draw_on_frame s' pt fps frame) = [] /\
  last_request (widget (draw_on_frame s' pt fps frame)) = last_request s.
Proof.
  intros Hon Hn Hm Hs Hlr. cbn zeta.
  split; [reflexivity|]. split; [reflexivity|].
  destruct (seen_frame_steers (widget (set_ptz s (Some control) isUSB)) pt fps frame
              name B Hon Hn Hm) as [Hd Hl].
  cbn [set_ptz widget with_ptz ptz_controller last_request] in Hd, Hl.
  rewrite Hlr, steer_steady in Hd, Hl by exact Hs.
  rewrite Hlr. split; assumption.
Qed.

(** X11: [set_tracked_name] keeps the cached box.  With tracking on and the
    new name not in the snapshot, the next update starts the tracker on the
    box cached for the old name, advances it, and steers on the position it
    reports. *)
Theorem rename_steers_on_stale_box s name pt fps frame (cached : Rect) :
  is_tracking s = true ->
  temp_tracked_name s = None ->
  last_box s = Some cached ->
  no_match (snapshot pt) (Some name) ->
  let r := draw_on_frame (set_tracked_name s (Some name)) pt fps frame in
  let rgb := rgb_frame_of (snd (annotated (set_tracked_name s (Some name)) pt frame)) in
  let t := update (start_track (tracker s) rgb cached) rgb in
  (exists frame', result r = Ok frame') /\
  tracker (widget r) = t /\
  track_started (widget r) = true /\
  last_box (widget r) = Some cached /\
  dispatched r =
    match ptz_controller s with
    | Some _ => fst (steer_on (is_usb s) (dead_zone frame) (get_position t)
                       (last_request s))
    | None => []
    end.
Proof.
  intros Hon Htemp Hbox Hno. destruct cached as [[[x y] w] h]. cbn zeta.
  set (s0 := set_tracked_name s (Some name)).
  assert (Hn0 : tracked_name s0 = Some name) by reflexivity.
  assert (Hs1 : fst (annotated s0 pt frame) = s0)
    by (unfold annotated; apply loop_no_match; rewrite Hn0; exact Hno).
  assert (Hon1 : is_tracking (fst (annotated s0 pt frame)) = true)
    by (rewrite Hs1; exact Hon).
  assert (Hbox1 : last_box (fst (annotated s0 pt frame)) = Some (x, y, w, h))
    by (rewrite Hs1; exact Hbox).
  rewrite (draw_on_frame_tracking s0 pt fps frame x y w h Hon1 Hbox1).
  rewrite Hs1. cbn zeta.
  pose proof (annotated_dead_zone s0 pt frame) as Hdz.
  set (f1 := snd (annotated s0 pt frame)) in *.
  assert (Hta : tracker_after s0 f1 x y w h =
                update (start_track (tracker s) (rgb_frame_of f1) (x, y, w, h))
                  (rgb_frame_of f1))
    by (unfold tracker_after; cbn; rewrite Htemp; reflexivity).
  pose proof (steering_box_cases s0 f1 x y w h) as Hsb.
  rewrite Hta in Hsb. cbn [s0 set_tracked_name with_tracked_name with_track_started
                             temp_tracked_name tracked_name] in Hsb.
  rewrite Htemp in Hsb. cbn [Py.opt_str_eq] in Hsb.
  destruct (get_position _) as [[[bx by_] bw] bh] eqn:Hpos in Hsb.
  destruct (track_face_steers _ _ _ _ _ _ _ _ _ _ _ Hn0 Hsb) as ((fr & Hr) & Hd & _).
  pose proof (track_face_fields s0 f1 x y w h name Hn0) as Hf. cbn zeta in Hf.
  destruct Hf as (F1 & F2 & F3 & F4 & F5 & F6 & _).
  rewrite Hr. cbn [finish result widget dispatched].
  split; [eexists; reflexivity|].
  split; [cbn [with_temp_tracked_name tracker]; rewrite F2; exact Hta|].
  split; [exact F1|].
  split.
  { unfold last_box in *.
    cbn [with_temp_tracked_name track_x track_y track_w track_h].
    rewrite F3, F4, F5, F6. exact Hbox. }
  rewrite Hpos. cbn [steer_on]. rewrite Hdz in Hd. exact Hd.
Qed.

End ControllerAndName.

(** X12: for frames of 1 to 16384 pixels a side the dead zone lies inside the
    frame: [0 <= min_x <= max_x < width] and [0 <= min_y <= max_y < height]. *)
Theorem dead_zone_inside_frame (frame : Frame) :
  1 <= shape1 frame <= MAX_DIM -> 1 <= shape0 frame <= MAX_DIM ->
  0 <= min_x (dead_zone frame) <= max_x (dead_zone frame) /\
  max_x (dead_zone frame) < shape1 frame /\
  0 <= min_y (dead_zone frame) <= max_y (dead_zone frame) /\
  max_y (dead_zone frame) < shape0 frame.
Proof.
  intros Hw Hh. rewrite dead_zone_integer_division by lia.
  cbn [min_x max_x min_y max_y].
  repeat split; Z.to_euclidean_division_equations; lia.
Qed.

Lemma dead_zone_inside_frame_800x600 :
  0 <= min_x (dead_zone Demo.frame_800x600) <= max_x (dead_zone Demo.frame_800x600) /\
  max_x (dead_zone Demo.frame_800x600) < 800 /\
  0 <= min_y (dead_zone Demo.frame_800x600) <= max_y (dead_zone Demo.frame_800x600) /\
  max_y (dead_zone Demo.frame_800x600) < 600.
Proof.
  apply (dead_zone_inside_frame Demo.frame_800x600); cbn; unfold MAX_DIM; lia.
Defined.

(** The specification's scenario: a face at [(10, 40, 50, 60)] is [left]. *)
Lemma fresh_command_follows_priority_demo :
  dispatched (draw_on_frame Demo.armed (Demo.seen "Alice" Demo.left_box) "FPS: 0"
                Demo.frame_800x600) = [NdiPanTiltSpeed (1 # 10) 0] /\
  last_request (widget (draw_on_frame Demo.armed (Demo.seen "Alice" Demo.left_box)
                          "FPS: 0" Demo.frame_800x600)) = Some cmd_left.
Proof.
  apply (fresh_command_follows_priority Demo.armed (Demo.seen "Alice" Demo.left_box)
           "FPS: 0" Demo.frame_800x600 "Alice" 1%nat Demo.left_box cmd_left);
    by_computation.
Defined.

(** Three frames with the face at the left: one call. *)
Lemma steady_box_one_command_demo :
  snd (run_frames Demo.armed (Demo.frames_showing Demo.left_box 3)) =
    [NdiPanTiltSpeed (1 # 10) 0].
Proof.
  rewrite (steady_box_one_command Demo.armed (Demo.seen "Alice" Demo.left_box)
             "FPS: 0" Demo.frame_800x600 "Alice" 1%nat Demo.left_box 2);
    first [by_computation | vm_compute; lia].
Defined.

(** A USB controller replaces the NDI one while Alice sits in the dead zone
    and [stop] was the last request: it is sent nothing. *)
Lemma new_controller_inherits_last_request_demo :
  ptz_controller (widget (set_ptz Demo.following (Some 2%nat) true)) = Some 2%nat /\
  last_request (widget (set_ptz Demo.following (Some 2%nat) true)) = Some cmd_stop /\
  dispatched (draw_on_frame (widget (set_ptz Demo.following (Some 2%nat) true))
                (Demo.seen "Alice" Demo.centre_box) "FPS: 0" Demo.frame_800x600) = [].
Proof.
  destruct (new_controller_inherits_last_request Demo.following 2%nat true
              (Demo.seen "Alice" Demo.centre_box) "FPS: 0" Demo.frame_800x600
              "Alice" Demo.centre_box) as (Hc & Hl & Hd & _);
    [by_computation | by_computation | by_computation
    | vm_compute; lia | by_computation |].
  split; [exact Hc|]. split; [by_computation | exact Hd].
Defined.

(** Alice is followed, the name is changed to Bob, nobody is in the
    snapshot: the tracker is restarted on Alice's box and advanced. *)
Lemma rename_steers_on_stale_box_demo :
  tracker (widget (draw_on_frame Demo.renamed Demo.nobody "FPS: 0" Demo.frame_800x600))
    = (203, 102, 403, 302) /\
  last_box (widget (draw_on_frame Demo.renamed Demo.nobody "FPS: 0"
                      Demo.frame_800x600)) = Some Demo.centre_box.
Proof.
  destruct (rename_steers_on_stale_box Demo.following "Bob" Demo.nobody "FPS: 0"
              Demo.frame_800x600 Demo.centre_box) as (_ & Ht & _ & Hb & _);
    [by_computation | by_computation | by_computation | intros e [] |].
  split; [unfold Demo.renamed; rewrite Ht; by_computation | exact Hb].
Defined.

(* ------------------------------------------------------------------ *)
(** ** The overlay and the snapshot guards *)

(** The three drawing calls of one snapshot entry, lines 246-249. *)
Definition entry_ops (entry : (Z * Z * Z * Z) * string * string) : list DrawOp :=
  let '((top, right_, bottom, left_), name, confidence) := entry in
  [Rectangle (left_, top) (right_, bottom) FONT_GREEN 2;
   PutText name (left_ + 5, top - 5) (1 # 2) FONT_WHITE 1;
   PutText confidence (right_ - 52, bottom - 5) (45 # 100) FONT_CYAN 1].

Section Overlay.

Context {T : Type} `{CorrelationTracker T}.

Implicit Types (s : CameraWidget T) (frame : Frame) (pt : option ProcessorThread).

Lemma loop_overlay entries : forall s frame,
  snd (fold_left annotate entries (s, frame)) =
    mkFrame (shape0 frame) (shape1 frame) (picture frame)
      (overlay frame ++ flat_map entry_ops entries).
Proof.
  induction entries as [|e rest IH]; intros s frame.
  - cbn. rewrite app_nil_r. destruct frame; reflexivity.
  - cbn [fold_left flat_map].
    destruct (annotate (s, frame) e) as [s1 f1] eqn:E. rewrite IH.
    destruct e as [[[[[top right_] bottom] left_] name] conf]. cbn in E.
    injection E as _ <-. cbn. rewrite <- !app_assoc. reflexivity.
Qed.

(** The frame [track_face] returns: the one it was given, with the dead-zone
    rectangle and then further drawings added. *)
Lemma track_face_frame s frame x y w h frame' :
  result (track_face s frame x y w h) = Ok frame' ->
  shape0 frame' = shape0 frame /\ shape1 frame' = shape1 frame /\
  picture frame' = picture frame /\
  exists rest,
    overlay frame' =
      overlay frame ++
      Rectangle (min_x (dead_zone frame), min_y (dead_zone frame))
                (max_x (dead_zone frame), max_y (dead_zone frame)) BOX_BLUE 2 :: rest.
Proof.
  unfold track_face, seed, reseed_or_predict.
  destruct (tracked_name s) as [name|] eqn:Hn; [|discriminate].
  destruct (track_started s) eqn:?; cbn;
    repeat match goal with
           | |- context [Py.opt_str_eq ?a ?b] => destruct (Py.opt_str_eq a b) eqn:?
           end; cbn;
    repeat match goal with
           | |- context [get_position ?t] => destruct (get_position t) as [[[? ?] ?] ?]
           end; cbn;
    destruct (ptz_controller s); cbn;
    try match goal with
        | |- context [steer ?a ?b ?c ?d ?e ?f ?g] => destruct (steer a b c d e f g)
        end; cbn; intros E; injection E as <-; cbn;
    (split; [reflexivity|]; split; [reflexivity|]; split; [reflexivity|]);
    rewrite <- !app_assoc; cbn [app]; eexists; reflexivity.
Qed.

(** X7: the update only adds to the picture.  The frame it returns has the
    size and the pixels of the one it was given; its overlay is the old one,
    then the three drawings of every snapshot entry in snapshot order
    (whatever the tracking state), then the tracking drawings, which start
    with the dead-zone rectangle and are absent when tracking is off, and
    last the FPS label. *)
Theorem annotation_is_appended s pt fps frame frame' :
  result (draw_on_frame s pt fps frame) = Ok frame' ->
  shape0 frame' = shape0 frame /\ shape1 frame' = shape1 frame /\
  picture frame' = picture frame /\
  exists tracking_ops,
    overlay frame' =
      overlay frame ++ flat_map entry_ops (snapshot pt) ++ tracking_ops ++
      [PutText fps (20, 30) (7 # 10) FONT_RED 2] /\
    (is_tracking s = false -> tracking_ops = []) /\
    (tracking_ops = [] \/
     exists rest,
       tracking_ops =
         Rectangle (min_x (dead_zone frame), min_y (dead_zone frame))
                   (max_x (dead_zone frame), max_y (dead_zone frame)) BOX_BLUE 2 :: rest).
Proof.
  pose proof (annotated_controls s pt frame) as Hc. cbn zeta in Hc.
  destruct Hc as (_ & C2 & _).
  assert (Hf1 : snd (annotated s pt frame) =
                mkFrame (shape0 frame) (shape1 frame) (picture frame)
                  (overlay frame ++ flat_map entry_ops (snapshot pt)))
    by apply loop_overlay.
  assert (Hidle : draw_on_frame s pt fps frame =
                  finish (fst (annotated s pt frame)) (snd (annotated s pt frame)) fps [] ->
                  result (draw_on_frame s pt fps frame) = Ok frame' ->
                  shape0 frame' = shape0 frame /\ shape1 frame' = shape1 frame /\
                  picture frame' = picture frame /\
                  overlay frame' =
                    overlay frame ++ flat_map entry_ops (snapshot pt) ++ [] ++
                    [PutText fps (20, 30) (7 # 10) FONT_RED 2]).
  { intros E Hr. rewrite E in Hr. cbn [finish result] in Hr. injection Hr as <-.
    rewrite Hf1. cbn. rewrite <- app_assoc. repeat split. }
  destruct (is_tracking (fst (annotated s pt frame))) eqn:Hon.
  2:{ intros Hr.
      destruct (Hidle (draw_on_frame_idle s pt fps frame (or_introl Hon)) Hr)
        as (S0 & S1 & P & O).
      repeat split; try assumption. exists []. repeat split; [exact O | left; reflexivity]. }
  destruct (last_box (fst (annotated s pt frame))) as [[[[x y] w] h]|] eqn:Hbox.
  2:{ intros Hr.
      destruct (Hidle (draw_on_frame_idle s pt fps frame (or_intror Hbox)) Hr)
        as (S0 & S1 & P & O).
      repeat split; try assumption. exists []. repeat split; [exact O | left; reflexivity]. }
  clear Hidle.
  rewrite (draw_on_frame_tracking s pt fps frame x y w h Hon Hbox). cbn zeta.
  destruct (result (track_face (fst (annotated s pt frame)) (snd (annotated s pt frame))
                      x y w h)) as [fr|e] eqn:Hr.
  2:{ intros E. rewrite Hr in E. discriminate E. }
  cbn [finish result]. intros E. injection E as <-.
  destruct (track_face_frame _ _ _ _ _ _ _ Hr) as (S0 & S1 & P & rest & O).
  rewrite annotated_dead_zone in O. rewrite Hf1 in S0, S1, P, O. cbn in S0, S1, P, O.
  cbn. rewrite S0, S1, P, O.
  repeat split.
  eexists (_ :: rest). split; [|split].
  - rewrite <- !app_assoc. cbn [app]. reflexivity.
  - intros Hoff. congruence.
  - right. eexists; reflexivity.
Qed.

(** X16: the guards of the loop.  Lists of unequal length are cut to the
    shortest: the update goes as on the three lists truncated to it.  When
    the recognition thread has published [None] for one of the three lists,
    the update goes as with no thread at all. *)
Theorem uneven_or_missing_snapshot s fps frame locations names confidences :
  let n := Nat.min (Nat.min (List.length locations) (List.length names))
                   (List.length confidences) in
  List.length (snapshot (Some (mkProcessorThread (Some locations) (Some names)
                                 (Some confidences)))) = n /\
  draw_on_frame s (Some (mkProcessorThread (Some locations) (Some names)
                           (Some confidences))) fps frame =
  draw_on_frame s (Some (mkProcessorThread (Some (firstn n locations))
                           (Some (firstn n names)) (Some (firstn n confidences))))
    fps frame /\
  (forall ls ns cs,
      draw_on_frame s (Some (mkProcessorThread None ns cs)) fps frame =
      draw_on_frame s None fps frame /\
      draw_on_frame s (Some (mkProcessorThread ls None cs)) fps frame =
      draw_on_frame s None fps frame /\
      draw_on_frame s (Some (mkProcessorThread ls ns None)) fps frame =
      draw_on_frame s None fps frame).
Proof.
  cbn zeta.
  set (n := Nat.min (Nat.min (List.length locations) (List.length names))
                    (List.length confidences)).
  assert (Hlen : List.length (zip3 locations names confidences) = n)
    by (unfold zip3; rewrite !length_combine; reflexivity).
  split; [exact Hlen|]. split.
  - unfold draw_on_frame. cbn [snapshot face_locations face_names confidence_list].
    replace (zip3 (firstn n locations) (firstn n names) (firstn n confidences))
      with (zip3 locations names confidences); [reflexivity|].
    unfold zip3. rewrite <- !combine_firstn. rewrite <- Hlen.
    symmetry. apply firstn_all.
  - intros ls ns cs. unfold draw_on_frame.
    cbn [snapshot face_locations face_names confidence_list].
    destruct ls, ns, cs; repeat split.
Qed.

End Overlay.

(** A frame of the demo run, or the input frame if the update raised. *)
Definition returned_frame {T} `{CorrelationTracker T} (s : CameraWidget T)
  (pt : option ProcessorThread) (fps : string) (frame : Frame) : Frame :=
  match result (draw_on_frame s pt fps frame) with
  | Ok frame' => frame'
  | Raise _ => frame
  end.

(** Alice at the left with tracking on: her three drawings, the tracking
    drawings, the FPS label. *)
Lemma annotation_is_appended_demo :
  let frame' := returned_frame Demo.armed (Demo.seen "Alice" Demo.left_box) "FPS: 0"
                  Demo.frame_800x600 in
  shape0 frame' = 600 /\ shape1 frame' = 800 /\ picture frame' = 0%nat /\
  exists tracking_ops,
    overlay frame' =
      [] ++ flat_map entry_ops (snapshot (Demo.seen "Alice" Demo.left_box)) ++
      tracking_ops ++ [PutText "FPS: 0" (20, 30) (7 # 10) FONT_RED 2] /\
    (is_tracking Demo.armed = false -> tracking_ops = []) /\
    (tracking_ops = [] \/
     exists rest,
       tracking_ops =
         Rectangle (min_x (dead_zone Demo.frame_800x600), min_y (dead_zone Demo.frame_800x600))
                   (max_x (dead_zone Demo.frame_800x600), max_y (dead_zone Demo.frame_800x600))
                   BOX_BLUE 2 :: rest).
Proof.
  apply (annotation_is_appended Demo.armed (Demo.seen "Alice" Demo.left_box) "FPS: 0"
           Demo.frame_800x600).
  by_computation.
Defined.

(* ------------------------------------------------------------------ *)
(** ** Teardown: stop and closeEvent *)




Section Teardown.

Context {T : Type} `{CorrelationTracker T}.




End Teardown.

(* ------------------------------------------------------------------ *)
(** ** The selected camera: clicked_widget *)

(** Camera widgets, by identity. *)
Definition WidgetId := nat.

(** [shared.constants.CURRENT_ACTIVE_CAM_WIDGET] and the ['active'] property
    of every camera widget ([False] when a widget is created, line 47). *)
Record Selection := mkSelection {
  CURRENT_ACTIVE_CAM_WIDGET : option WidgetId;
  active : WidgetId -> bool
}.

(** [w.setProperty('active', not w.property('active'))]. *)
Definition toggle_active (g : Selection) (w : WidgetId) : Selection :=
  mkSelection (CURRENT_ACTIVE_CAM_WIDGET g)
    (fun w' => if Nat.eqb w' w then negb (active g w) else active g w').

(** [clicked_widget], lines 202-226. *)
Definition clicked_widget (g : Selection) (widget : WidgetId) : Selection :=
  let g :=
    match CURRENT_ACTIVE_CAM_WIDGET g with
    | Some current => toggle_active g current
    | None => g
    end in
  let same :=
    match CURRENT_ACTIVE_CAM_WIDGET g with
    | Some current => Nat.eqb current widget
    | None => false
    end in
  if same then mkSelection None (active g)
  else toggle_active (mkSelection (Some widget) (active g)) widget.

(** Nothing selected, as when the application starts. *)
Definition no_selection : Selection := mkSelection None (fun _ => false).

(** The widget marked active is the selected one, and no other. *)
Definition selection_consistent (g : Selection) : Prop :=
  forall w, active g w = true <-> CURRENT_ACTIVE_CAM_WIDGET g = Some w.

Lemma clicked_widget_cases (g : Selection) (widget : WidgetId) :
  clicked_widget g widget =
    match CURRENT_ACTIVE_CAM_WIDGET g with
    | Some current =>
        if Nat.eqb current widget
        then mkSelection None (active (toggle_active g current))
        else toggle_active
               (mkSelection (Some widget) (active (toggle_active g current))) widget
    | None => toggle_active (mkSelection (Some widget) (active g)) widget
    end.
Proof.
  unfold clicked_widget.
  destruct (CURRENT_ACTIVE_CAM_WIDGET g) as [current|] eqn:Hcur.
  - cbn [toggle_active CURRENT_ACTIVE_CAM_WIDGET]. rewrite Hcur. reflexivity.
  - rewrite Hcur. reflexivity.
Qed.

(** X13: clicks keep the selection consistent.  Starting from a state in
    which exactly the selected widget is marked active (as at start-up, with
    nothing selected), after a click on a widget the same holds again; the
    click deselects that widget if it was the selected one and selects it
    otherwise. *)
Theorem click_keeps_selection_consistent (g : Selection) (widget : WidgetId) :
  selection_consistent g ->
  selection_consistent no_selection /\
  selection_consistent (clicked_widget g widget) /\
  CURRENT_ACTIVE_CAM_WIDGET (clicked_widget g widget) =
    match CURRENT_ACTIVE_CAM_WIDGET g with
    | Some current => if Nat.eqb current widget then None else Some widget
    | None => Some widget
    end.
Proof.
  intros Hg. split; [intros w; cbn; split; discriminate|].
  rewrite clicked_widget_cases.
  destruct (CURRENT_ACTIVE_CAM_WIDGET g) as [current|] eqn:Hcur.
  - assert (Hc : active g current = true) by (apply Hg; exact Hcur).
    destruct (Nat.eqb current widget) eqn:Ecw; (split; [|reflexivity]); intros w; cbn;
      rewrite Hc; cbn.
    + destruct (Nat.eqb w current) eqn:Ew; [split; discriminate|].
      split; [|discriminate]. intros Hw. apply Hg in Hw.
      rewrite Hcur in Hw. injection Hw as <-. rewrite Nat.eqb_refl in Ew. discriminate.
    + apply Nat.eqb_neq in Ecw.
      destruct (Nat.eqb widget current) eqn:Ewc;
        [apply Nat.eqb_eq in Ewc; congruence|].
      destruct (Nat.eqb w widget) eqn:Ew.
      * apply Nat.eqb_eq in Ew. subst w.
        destruct (active g widget) eqn:Ha; [|split; reflexivity].
        apply Hg in Ha. congruence.
      * apply Nat.eqb_neq in Ew.
        destruct (Nat.eqb w current) eqn:Ew'; [split; [discriminate | congruence]|].
        split; [|congruence]. intros Hw. apply Hg in Hw.
        rewrite Hcur in Hw. injection Hw as <-. rewrite Nat.eqb_refl in Ew'. discriminate.
  - split; [|reflexivity]. intros w. cbn.
    destruct (Nat.eqb w widget) eqn:Ew.
    + apply Nat.eqb_eq in Ew. subst w.
      destruct (active g widget) eqn:Ha; [|split; reflexivity].
      apply Hg in Ha. congruence.
    + apply Nat.eqb_neq in Ew. split; [|congruence].
      intros Ha. apply Hg in Ha. congruence.
Qed.

(** X14: a second click on the same widget undoes the first when that widget,
    or none, was selected: the selection and every ['active'] property are as
    before.  When another widget was selected, the two clicks leave nothing
    selected and nothing marked active. *)
Theorem double_click_restores (g : Selection) (widget : WidgetId) :
  selection_consistent g ->
  let g2 := clicked_widget (clicked_widget g widget) widget in
  (CURRENT_ACTIVE_CAM_WIDGET g = None \/ CURRENT_ACTIVE_CAM_WIDGET g = Some widget ->
   CURRENT_ACTIVE_CAM_WIDGET g2 = CURRENT_ACTIVE_CAM_WIDGET g /\
   forall w, active g2 w = active g w) /\
  (forall other, CURRENT_ACTIVE_CAM_WIDGET g = Some other -> other <> widget ->
   CURRENT_ACTIVE_CAM_WIDGET g2 = None /\ forall w, active g2 w = false).
Proof.
  intros Hg. cbn zeta.
  assert (Hoff : forall w, CURRENT_ACTIVE_CAM_WIDGET g <> Some w -> active g w = false).
  { intros w Hw. destruct (active g w) eqn:E; [|reflexivity].
    apply Hg in E. contradiction. }
  split.
  - intros [Hnone | Hsel].
    + rewrite (clicked_widget_cases g), Hnone.
      rewrite clicked_widget_cases. cbn. rewrite Nat.eqb_refl. cbn.
      split; [reflexivity|]. intros w.
      destruct (Nat.eqb w widget) eqn:Ew; [|reflexivity].
      apply Nat.eqb_eq in Ew. subst w.
      destruct (active g widget); reflexivity.
    + assert (Ha : active g widget = true) by (apply Hg; exact Hsel).
      rewrite (clicked_widget_cases g), Hsel, Nat.eqb_refl.
      rewrite clicked_widget_cases. cbn. rewrite ?Nat.eqb_refl, ?Ha. cbn.
      split; [reflexivity|]. intros w.
      destruct (Nat.eqb w widget) eqn:Ew; [|reflexivity].
      apply Nat.eqb_eq in Ew. subst w. rewrite Ha. reflexivity.
  - intros other Hsel Hne.
    assert (Ha : active g other = true) by (apply Hg; exact Hsel).
    assert (Hw : active g widget = false) by (apply Hoff; congruence).
    assert (Eow : Nat.eqb other widget = false) by (apply Nat.eqb_neq; exact Hne).
    assert (Ewo : Nat.eqb widget other = false) by (apply Nat.eqb_neq; congruence).
    rewrite (clicked_widget_cases g), Hsel, Eow.
    rewrite clicked_widget_cases. cbn. rewrite !Nat.eqb_refl, Ewo, Ha, Hw. cbn.
    split; [reflexivity|]. intros w.
    destruct (Nat.eqb w widget) eqn:Ew; [reflexivity|].
    destruct (Nat.eqb w other) eqn:Ew'; [reflexivity|].
    apply Hoff. rewrite Hsel. intros E. injection E as ->.
    rewrite Nat.eqb_refl in Ew'. discriminate.
Qed.

Lemma no_selection_consistent : selection_consistent no_selection.
Proof. intros w. cbn. split; discriminate. Qed.

Lemma first_selection_consistent : selection_consistent (clicked_widget no_selection 1%nat).
Proof.
  intros w. cbn. destruct (Nat.eqb w 1) eqn:Ew.
  - apply Nat.eqb_eq in Ew. subst w. split; reflexivity.
  - apply Nat.eqb_neq in Ew. split; [discriminate | congruence].
Qed.

(** Camera 2 is clicked while camera 1 is selected. *)
Lemma click_keeps_selection_consistent_demo :
  selection_consistent (clicked_widget (clicked_widget no_selection 1%nat) 2%nat) /\
  CURRENT_ACTIVE_CAM_WIDGET (clicked_widget (clicked_widget no_selection 1%nat) 2%nat)
    = Some 2%nat.
Proof.
  destruct (click_keeps_selection_consistent (clicked_widget no_selection 1%nat) 2%nat
              first_selection_consistent) as (_ & Hc & Hs).
  split; [exact Hc | exact Hs].
Defined.

(** Camera 1 is selected; two clicks on it, or two clicks on camera 2. *)
Lemma double_click_restores_demo :
  CURRENT_ACTIVE_CAM_WIDGET
    (clicked_widget (clicked_widget (clicked_widget no_selection 1%nat) 1%nat) 1%nat)
    = Some 1%nat /\
  CURRENT_ACTIVE_CAM_WIDGET
    (clicked_widget (clicked_widget (clicked_widget no_selection 1%nat) 2%nat) 2%nat)
    = None.
Proof.
  split.
  - destruct (double_click_restores (clicked_widget no_selection 1%nat) 1%nat
                first_selection_consistent) as [Hsame _].
    destruct Hsame as [Hc _]; [right; reflexivity | exact Hc].
  - destruct (double_click_restores (clicked_widget no_selection 1%nat) 2%nat
                first_selection_consistent) as [_ Hother].
    destruct (Hother 1%nat) as [Hc _]; [reflexivity | discriminate | exact Hc].
Defined.

(* ------------------------------------------------------------------ *)
(** ** The dlib test script: click *)

Module DlibTest.

(** The module globals [click] reads and writes; all are [None] until the
    main loop assigns them. *)
Record Globals := mkGlobals {
  x : option Z;
  w : option Z;
  y : option Z;
  h : option Z;
  enable_motion : option bool
}.

Inductive Outcome :=
| Done (g : Globals)
| TypeError.

(** [cv2.EVENT_LBUTTONDOWN]. *)
Definition EVENT_LBUTTONDOWN : Z := 1.

(** Truth value of an [int]. *)
Definition truthy (n : Z) : bool := negb (n =? 0).

(** [(x_pos > x) & (y_pos > y) * (x_pos < x + w) & (y_pos < y + h)]: [*]
    binds tighter than [&], and both work on the comparisons as the integers
    0 and 1. *)
Definition hit (x_pos y_pos bx by_ bw bh : Z) : Z :=
  Z.land (Z.land (Z.b2z (x_pos >? bx))
                 (Z.b2z (y_pos >? by_) * Z.b2z (x_pos <? bx + bw)))
         (Z.b2z (y_pos <? by_ + bh)).

(** [not enable_motion], on a global that may still be [None]. *)
Definition toggled (g : Globals) : Globals :=
  mkGlobals (x g) (w g) (y g) (h g)
    (Some (negb match enable_motion g with Some b => b | None => false end)).

(** [click], lines 37-41.  A comparison or an addition with [None] raises
    [TypeError]. *)
Definition click (g : Globals) (event x_pos y_pos : Z) : Outcome :=
  if event =? EVENT_LBUTTONDOWN then
    match x g, y g, w g, h g with
    | Some bx, Some by_, Some bw, Some bh =>
        if truthy (hit x_pos y_pos bx by_ bw bh) then Done (toggled g) else Done g
    | _, _, _, _ => TypeError
    end
  else Done g.

Lemma hit_iff (x_pos y_pos bx by_ bw bh : Z) :
  truthy (hit x_pos y_pos bx by_ bw bh) = true <->
  bx < x_pos < bx + bw /\ by_ < y_pos < by_ + bh.
Proof.
  unfold truthy, hit. rewrite !Z.gtb_ltb.
  destruct (Z.ltb_spec bx x_pos), (Z.ltb_spec by_ y_pos),
           (Z.ltb_spec x_pos (bx + bw)), (Z.ltb_spec y_pos (by_ + bh));
    cbn; split; try discriminate; try reflexivity; intros; lia.
Qed.

(** X18: a mouse event other than a left-button press changes nothing (and
    raises nothing, whatever the globals hold).  A left-button press, once the
    box globals are set, flips [enable_motion] exactly when the pointer is
    strictly inside [(x, x + w)] by [(y, y + h)], and leaves the globals
    alone otherwise; while a box global is still [None] it raises
    [TypeError]. *)
Theorem click_toggles_inside_box (g : Globals) (event x_pos y_pos : Z) :
  (event <> EVENT_LBUTTONDOWN -> click g event x_pos y_pos = Done g) /\
  (forall bx by_ bw bh,
      x g = Some bx -> y g = Some by_ -> w g = Some bw -> h g = Some bh ->
      (bx < x_pos < bx + bw /\ by_ < y_pos < by_ + bh ->
       click g EVENT_LBUTTONDOWN x_pos y_pos = Done (toggled g)) /\
      (~ (bx < x_pos < bx + bw /\ by_ < y_pos < by_ + bh) ->
       click g EVENT_LBUTTONDOWN x_pos y_pos = Done g)) /\
  (x g = None \/ y g = None \/ w g = None \/ h g = None ->
   click g EVENT_LBUTTONDOWN x_pos y_pos = TypeError).
Proof.
  split; [|split].
  - intros Hne. unfold click. apply Z.eqb_neq in Hne. rewrite Hne. reflexivity.
  - intros bx by_ bw bh Hx Hy Hw Hh. unfold click. rewrite Z.eqb_refl, Hx, Hy, Hw, Hh.
    split; intros Hin.
    + apply hit_iff in Hin. rewrite Hin. reflexivity.
    + destruct (truthy (hit x_pos y_pos bx by_ bw bh)) eqn:E; [|reflexivity].
      apply hit_iff in E. contradiction.
  - unfold click. rewrite Z.eqb_refl.
    intros [E | [E | [E | E]]]; rewrite E;
      destruct (x g), (y g), (w g), (h g); reflexivity.
Qed.

End DlibTest.

(* ------------------------------------------------------------------ *)
(** ** The YOLO handler: getClassLabel *)

Module Yolo.

(** [getClassLabel], lines 38-41: the items of the dict are scanned in order
    and the value of the first key equal to [class_id] is returned; falling
    off the loop returns [None]. *)
Fixpoint getClassLabel (class_id : Z) (classes : list (Z * string)) : option string :=
  match classes with
  | [] => None
  | (key, value) :: rest =>
      if class_id =? key then Some value else getClassLabel class_id rest
  end.

(** The table of the MobileSSD model, lines 21-26. *)
Definition classNames : list (Z * string) :=
  [(0, "background"); (1, "aeroplane"); (2, "bicycle"); (3, "bird"); (4, "boat");
   (5, "bottle"); (6, "bus"); (7, "car"); (8, "cat"); (9, "chair"); (10, "cow");
   (11, "diningtable"); (12, "dog"); (13, "horse"); (14, "motorbike");
   (15, "person"); (16, "pottedplant"); (17, "sheep"); (18, "sofa");
   (19, "train"); (20, "tvmonitor")]%string.

(** X19: on the items of a dict (keys all different), [getClassLabel] returns
    the value stored under the class id, and [None], not an error, when the
    id is not a key. *)
Theorem getClassLabel_lookup (class_id : Z) (classes : list (Z * string)) :
  NoDup (map fst classes) ->
  (forall value, getClassLabel class_id classes = Some value <->
                 In (class_id, value) classes) /\
  (getClassLabel class_id classes = None <-> ~ In class_id (map fst classes)).
Proof.
  induction classes as [|[key value] rest IH]; intros Hnd.
  - cbn. split; [intros v; split; [discriminate | contradiction]|].
    split; [intros _ []; fail | reflexivity].
  - inversion Hnd as [|k ks Hnotin Hnd']; subst.
    destruct (IH Hnd') as [IHs IHn]. cbn [getClassLabel map fst In].
    destruct (Z.eqb_spec class_id key) as [->|Hne].
    + split.
      * intros v. split.
        -- intros E. injection E as <-. left; reflexivity.
        -- intros [E | Hin]; [injection E as <-; reflexivity|].
           exfalso. apply Hnotin. apply (in_map fst) in Hin. exact Hin.
      * split; [discriminate | intros Hc; exfalso; apply Hc; left; reflexivity].
    + split.
      * intros v. rewrite IHs. split; [intros Hin; right; exact Hin|].
        intros [E | Hin]; [injection E as E _; congruence | exact Hin].
      * rewrite IHn. split; [intros Hn [E | Hin]; [congruence | contradiction]|].
        intros Hn Hin. apply Hn. right; exact Hin.
Qed.

End Yolo.

(** A left-button press at [(120, 100)] with the box at [(100, 80)], 50 wide
    and 40 high, switches tracking on. *)
Lemma click_toggles_inside_box_demo :
  DlibTest.click (DlibTest.mkGlobals (Some 100) (Some 50) (Some 80) (Some 40) None)
    DlibTest.EVENT_LBUTTONDOWN 120 100
  = DlibTest.Done
      (DlibTest.mkGlobals (Some 100) (Some 50) (Some 80) (Some 40) (Some true)).
Proof.
  destruct (DlibTest.click_toggles_inside_box
              (DlibTest.mkGlobals (Some 100) (Some 50) (Some 80) (Some 40) None)
              DlibTest.EVENT_LBUTTONDOWN 120 100) as (_ & Hset & _).
  destruct (Hset 100 80 50 40 eq_refl eq_refl eq_refl eq_refl) as [Hin _].
  apply Hin. lia.
Defined.

Lemma getClassLabel_lookup_demo :
  Yolo.getClassLabel 15 Yolo.classNames = Some "person"%string /\
  Yolo.getClassLabel 21 Yolo.classNames = None.
Proof.
  split.
  - apply (Yolo.getClassLabel_lookup 15 Yolo.classNames).
    + repeat constructor; cbn; intuition (try discriminate; try lia).
    + cbn. tauto.
  - apply (Yolo.getClassLabel_lookup 21 Yolo.classNames).
    + repeat constructor; cbn; intuition (try discriminate; try lia).
    + cbn. intuition lia.
Defined.

(* ------------------------------------------------------------------ *)
(** ** Sequences of operations on one widget *)

(** What the application does with a widget after creating it. *)
Inductive Op :=
| OnFrame (pt : option ProcessorThread) (fps : string) (frame : Frame)
| ToggleTracking
| SetTrackedName (name : option string)
| SetPtz (control : option Controller) (isUSB : bool).

Section Operations.

Context {T : Type} `{CorrelationTracker T}.

Definition apply_op (s : CameraWidget T) (op : Op) : CameraWidget T :=
  match op with
  | OnFrame pt fps frame => widget (draw_on_frame s pt fps frame)
  | ToggleTracking => widget (set_tracking s)
  | SetTrackedName name => set_tracked_name s name
  | SetPtz control isUSB => widget (set_ptz s control isUSB)
  end.

Definition run_ops (s : CameraWidget T) (ops : list Op) : CameraWidget T :=
  fold_left apply_op ops s.

(** X5: an update calls the actuator only if tracking is on, a name is set and
    a controller is configured; it then returns the frame and a box is
    cached. *)
Theorem dispatch_needs_tracking (s : CameraWidget T) pt fps frame :
  dispatched (draw_on_frame s pt fps frame) <> [] ->
  is_tracking s = true /\ tracked_name s <> None /\ ptz_controller s <> None /\
  last_box (widget (draw_on_frame s pt fps frame)) <> None /\
  exists frame', result (draw_on_frame s pt fps frame) = Ok frame'.
Proof.
  intros Hd.
  destruct (draw_on_frame_cases s pt fps frame)
    as [[_ E] | [(_ & _ & _ & E) |
        (name & x & y & w & h & bx & by_ & bw & bh & fr & Hon & Hn & Hb & _ & E & _)]];
    rewrite E in Hd |- *; cbn [finish dispatched result widget] in *;
    try (exfalso; apply Hd; reflexivity).
  split; [exact Hon|]. split; [congruence|].
  split; [destruct (ptz_controller s); [discriminate | exfalso; apply Hd; reflexivity]|].
  split; [|eexists; reflexivity].
  pose proof (annotated_controls s pt frame) as Hc. cbn zeta in Hc.
  destruct Hc as (_ & _ & C3 & _).
  pose proof (track_face_fields (fst (annotated s pt frame)) (snd (annotated s pt frame))
                x y w h name (eq_trans C3 Hn)) as Hf.
  cbn zeta in Hf. destruct Hf as (_ & _ & F3 & F4 & F5 & F6 & _).
  unfold last_box in *. cbn. rewrite F3, F4, F5, F6, Hb. discriminate.
Qed.

End Operations.

Lemma dispatch_needs_tracking_demo :
  is_tracking Demo.armed = true /\ tracked_name Demo.armed <> None /\
  ptz_controller Demo.armed <> None /\
  last_box (widget (draw_on_frame Demo.armed (Demo.seen "Alice" Demo.left_box) "FPS: 0"
                      Demo.frame_800x600)) <> None /\
  exists frame', result (draw_on_frame Demo.armed (Demo.seen "Alice" Demo.left_box)
                           "FPS: 0" Demo.frame_800x600) = Ok frame'.
Proof.
  apply (dispatch_needs_tracking Demo.armed (Demo.seen "Alice" Demo.left_box) "FPS: 0"
           Demo.frame_800x600).
  by_computation.
Defined.

(** *** The order of the calls on the tracker *)

Module TrackerLog.

(** A call on the correlation tracker. *)
Inductive TrackerCall :=
| StartTrack (frame : Frame) (rect : Rect)
| Update (frame : Frame).

(** A tracker that records the calls made on it, oldest first, and reports
    the rectangle it was last started on. *)
Definition Log := list TrackerCall.

Fixpoint last_started (log : Log) (default : Rect) : Rect :=
  match log with
  | [] => default
  | StartTrack _ rect :: rest => last_started rest rect
  | Update _ :: rest => last_started rest default
  end.

#[global] Instance logging : CorrelationTracker Log := {|
  correlation_tracker := [];
  start_track := fun log frame rect => log ++ [StartTrack frame rect];
  update := fun log frame => log ++ [Update frame];
  get_position := fun log => last_started log (0, 0, 0, 0)
|}.

(** No [update] comes before the first [start_track]. *)
Definition started_first (log : Log) : Prop :=
  match log with
  | Update _ :: _ => False
  | _ => True
  end.

Definition started (log : Log) : Prop :=
  match log with
  | StartTrack _ _ :: _ => True
  | _ => False
  end.

Lemma started_app (log : Log) (c : TrackerCall) : started log -> started (log ++ [c]).
Proof. destruct log as [|[]]; cbn; tauto. Qed.

Lemma started_start (log : Log) frame rect :
  started_first log -> started (log ++ [StartTrack frame rect]).
Proof. destruct log as [|[]]; cbn; tauto. Qed.

(** What the operations keep: the log starts with a [start_track] if it is
    not empty, and it is not empty once [track_started] is set. *)
Definition well_started (s : CameraWidget Log) : Prop :=
  started_first (tracker s) /\ (track_started s = true -> started (tracker s)).

Lemma started_is_first (log : Log) : started log -> started_first log.
Proof. destruct log as [|[]]; cbn; tauto. Qed.

Lemma apply_op_well_started (s : CameraWidget Log) (op : Op) :
  well_started s -> well_started (apply_op s op).
Proof.
  intros [Hfirst Hstarted]. destruct op as [pt fps frame| |name|control isUSB].
  - cbn [apply_op].
    pose proof (annotated_controls s pt frame) as Hc. cbn zeta in Hc.
    destruct Hc as (C1 & _ & C3 & C4 & _).
    destruct (draw_on_frame_cases s pt fps frame)
      as [[_ E] | [(_ & _ & _ & E) |
          (nm & x & y & w & h & bx & by_ & bw & bh & fr & _ & Hn & _ & _ & E & _)]];
      rewrite E; cbn [finish widget].
    + split; cbn; rewrite ?C1, ?C4; assumption.
    + split; assumption.
    + pose proof (track_face_fields (fst (annotated s pt frame))
                    (snd (annotated s pt frame)) x y w h nm (eq_trans C3 Hn)) as Hf.
      cbn zeta in Hf. destruct Hf as (F1 & F2 & _).
      assert (Hs : started (tracker_after (fst (annotated s pt frame))
                              (snd (annotated s pt frame)) x y w h)).
      { unfold tracker_after. rewrite C1, C4.
        destruct (track_started s) eqn:Hts;
          destruct (Py.opt_str_eq _ _); cbn;
          repeat first [ apply started_start | apply started_app ];
          first [ exact Hfirst | apply Hstarted; reflexivity
                | apply started_is_first, started_start; exact Hfirst ]. }
      split; cbn [with_temp_tracked_name tracker track_started]; rewrite ?F2;
        [apply started_is_first; exact Hs | intros _; exact Hs].
  - unfold apply_op, set_tracking. cbn. destruct (ptz_controller s); cbn;
      split; assumption.
  - cbn. split; [exact Hfirst | discriminate].
  - cbn [apply_op]. unfold set_ptz.
    destruct control, (ptz_controller s), (ptz_is_usb s) as [[|]|];
      split; assumption.
Qed.

(** X17: the tracker is never updated before it has been started.  Whatever
    frames, toggles, renamings and controller changes a new widget goes
    through, the first call it makes on its tracker is [start_track]. *)
Theorem tracker_started_before_update (ndi_ptz : option Controller) (ops : list Op) :
  started_first (tracker (run_ops (init ndi_ptz) ops)).
Proof.
  assert (Hall : forall ops s, well_started s -> well_started (run_ops s ops)).
  { induction ops0 as [|op rest IH]; intros s Hs; [exact Hs|].
    cbn. apply IH. apply apply_op_well_started. exact Hs. }
  apply (Hall ops (init ndi_ptz)).
  split; [exact I | discriminate].
Qed.

End TrackerLog.
